(** * server.py: a static-file HTTP server, embedded and verified

    The development follows [server.py]: the request handler
    [CustomHTTPRequestHandler] (its constructor, [end_headers] and
    [guess_type]), the function [start_server] and the script body
    ([main]).  Python strings are [string]s; integers are [Z]; the calls
    the program makes into the operating system and the standard library
    are answered by an explicit environment. *)

From Stdlib Require Import ZArith List String Ascii Bool Lia.
From Stdlib Require Import Numbers.DecimalString.
Import ListNotations.
Open Scope string_scope.
Open Scope Z_scope.

(** ** Python's [str] operations used by the program *)

Module Str.

(** [s.endswith(suffix)]: some tail of [s] is [suffix]. *)
Fixpoint endswith (s suffix : string) : bool :=
  if String.eqb s suffix then true
  else match s with
       | EmptyString => false
       | String _ s' => endswith s' suffix
       end.

(** ASCII letter case, as [str.lower] acts on ASCII letters. *)
Definition lower_char (c : ascii) : ascii :=
  let n := nat_of_ascii c in
  if ((65 <=? n) && (n <=? 90))%nat then ascii_of_nat (n + 32) else c.

Fixpoint lower (s : string) : string :=
  match s with
  | EmptyString => EmptyString
  | String c s' => String (lower_char c) (lower s')
  end.

(** [sub in s]: [sub] occurs somewhere in [s]. *)
Fixpoint contains (s sub : string) : bool :=
  if String.prefix sub s then true
  else match s with
       | EmptyString => false
       | String _ s' => contains s' sub
       end.

(** [str(n)] for an integer: decimal digits, a leading minus sign for
    negative numbers. *)
Definition str (n : Z) : string := NilZero.string_of_int (Z.to_int n).

(** The line feed character, written [\n] in Python literals. *)
Definition nl : string := String (ascii_of_nat 10) EmptyString.

End Str.

(** ** MIME types: [CustomHTTPRequestHandler.guess_type] *)

Module Mime.

(** [x or default] on an optional string: [None] and the empty string
    are the falsy values. *)
Definition py_or (x : option string) (default : string) : string :=
  match x with
  | Some s => if String.eqb s "" then default else s
  | None => default
  end.

(** The suffixes handled specially, in the order the code tests them. *)
Definition special_suffixes : list string := [".js"; ".css"; ".html"; ".json"].

(** The MIME inference policy as the specification lists it. *)
Definition policy : list (string * string) :=
  [ (".js", "text/javascript");
    (".css", "text/css");
    (".html", "text/html; charset=utf-8");
    (".json", "application/json") ].

Section GuessType.

(** [mimetypes.guess_type] of the standard library: the general
    extension-to-MIME lookup, returning [(type, encoding)]. *)
Variable mimetypes_guess_type : string -> option string * option string.

Definition guess_type (path : string) : string :=
  let '(mimetype, encoding) := mimetypes_guess_type path in
  if Str.endswith path ".js" then "text/javascript"
  else if Str.endswith path ".css" then "text/css"
  else if Str.endswith path ".html" then "text/html; charset=utf-8"
  else if Str.endswith path ".json" then "application/json"
  else py_or mimetype "application/octet-stream".

End GuessType.

(** A sample lookup table standing for the system's MIME database; the
    real one matches extensions without regard to case. *)
Definition sample_lookup (path : string) : option string * option string :=
  let p := Str.lower path in
  if Str.endswith p ".js" then (Some "application/javascript", None)
  else if Str.endswith p ".html" then (Some "text/html", None)
  else if Str.endswith p ".png" then (Some "image/png", None)
  else if Str.endswith p ".gz" then (Some "application/x-tar", Some "gzip")
  else (None, None).

End Mime.

(** ** The request handler: response headers

    [CustomHTTPRequestHandler] extends the standard library's
    [SimpleHTTPRequestHandler].  The inherited methods that build a
    response are modelled after [http.server]: headers are collected in
    a buffer, and the buffer is written to the connection when the
    headers are ended. *)

Module Handler.

Definition crlf : string := String (ascii_of_nat 13) (String (ascii_of_nat 10) EmptyString).

Record handler := {
  directory : string;            (* root directory given to the constructor *)
  command : string;              (* request method *)
  request_version : string;      (* "HTTP/1.1", "HTTP/1.0" or "HTTP/0.9" *)
  version_string : string;       (* value of the Server header *)
  date_time_string : string;     (* value of the Date header *)
  close_connection : bool;
  headers_buffer : list string;  (* _headers_buffer; absent = empty *)
  wfile : string                 (* bytes written to the connection *)
}.

Definition set_buffer (b : list string) (h : handler) : handler :=
  {| directory := directory h; command := command h;
     request_version := request_version h;
     version_string := version_string h;
     date_time_string := date_time_string h;
     close_connection := close_connection h;
     headers_buffer := b; wfile := wfile h |}.

Definition set_close (c : bool) (h : handler) : handler :=
  {| directory := directory h; command := command h;
     request_version := request_version h;
     version_string := version_string h;
     date_time_string := date_time_string h;
     close_connection := c;
     headers_buffer := headers_buffer h; wfile := wfile h |}.

Definition write (data : string) (h : handler) : handler :=
  {| directory := directory h; command := command h;
     request_version := request_version h;
     version_string := version_string h;
     date_time_string := date_time_string h;
     close_connection := close_connection h;
     headers_buffer := headers_buffer h; wfile := wfile h ++ data |}.

Notation "h |> f" := (f h) (at level 45, left associativity, only parsing).

(** *** Inherited from [BaseHTTPRequestHandler] *)

Definition protocol_version : string := "HTTP/1.0".

Definition status_line (code : Z) (message : string) : string :=
  protocol_version ++ " " ++ Str.str code ++ " " ++ message ++ crlf.

Definition header_line (keyword value : string) : string :=
  keyword ++ ": " ++ value ++ crlf.

Definition send_response_only (code : Z) (message : string) (h : handler) : handler :=
  if String.eqb (request_version h) "HTTP/0.9" then h
  else set_buffer (headers_buffer h ++ [status_line code message]) h.

Definition send_header (keyword value : string) (h : handler) : handler :=
  let h := if String.eqb (request_version h) "HTTP/0.9" then h
           else set_buffer (headers_buffer h ++ [header_line keyword value]) h in
  if String.eqb (Str.lower keyword) "connection" then
    if String.eqb (Str.lower value) "close" then set_close true h
    else if String.eqb (Str.lower value) "keep-alive" then set_close false h
    else h
  else h.

Definition flush_headers (h : handler) : handler :=
  h |> write (String.concat "" (headers_buffer h)) |> set_buffer [].

(** [BaseHTTPRequestHandler.end_headers], reached as [super().end_headers()]. *)
Definition super_end_headers (h : handler) : handler :=
  if String.eqb (request_version h) "HTTP/0.9" then h
  else h |> set_buffer (headers_buffer h ++ [crlf]) |> flush_headers.

(** [send_response] without its log line: the status line, then the
    Server and Date headers. *)
Definition send_response (code : Z) (message : string) (h : handler) : handler :=
  h |> send_response_only code message
    |> send_header "Server" (version_string h)
    |> send_header "Date" (date_time_string h).

(** *** [CustomHTTPRequestHandler.end_headers] (server.py) *)

Definition end_headers (h : handler) : handler :=
  h |> send_header "Access-Control-Allow-Origin" "*"
    |> send_header "Access-Control-Allow-Methods" "GET, POST, OPTIONS"
    |> send_header "Access-Control-Allow-Headers" "Content-Type"
    |> super_end_headers.

(** The three header lines the override adds. *)
Definition cors_lines : list string :=
  [ header_line "Access-Control-Allow-Origin" "*";
    header_line "Access-Control-Allow-Methods" "GET, POST, OPTIONS";
    header_line "Access-Control-Allow-Headers" "Content-Type" ].

(** *** Responses

    Every response of the inherited code is a series of calls that
    fill the header buffer, closed by [self.end_headers()], which in
    this class is the override above. *)

Inductive header_call :=
| SendResponseOnly (code : Z) (message : string)
| SendResponse (code : Z) (message : string)
| SendHeader (keyword value : string).

Definition call (c : header_call) (h : handler) : handler :=
  match c with
  | SendResponseOnly code message => send_response_only code message h
  | SendResponse code message => send_response code message h
  | SendHeader keyword value => send_header keyword value h
  end.

Definition respond (calls : list header_call) (h : handler) : handler :=
  fold_left (fun h c => call c h) calls h |> end_headers.

(** The header lines a call leaves in the buffer. *)
Definition lines_of (h : handler) (c : header_call) : list string :=
  match c with
  | SendResponseOnly code message => [status_line code message]
  | SendResponse code message =>
      [status_line code message;
       header_line "Server" (version_string h);
       header_line "Date" (date_time_string h)]
  | SendHeader keyword value => [header_line keyword value]
  end.

(** [send_error] of [BaseHTTPRequestHandler], without its log line;
    [message] and the page [body] come from the library's tables. *)
Definition send_error (code : Z) (message body : string) (h : handler) : handler :=
  let h := h |> send_response code message
             |> send_header "Connection" "close" in
  let has_body := (200 <=? code) && negb ((code =? 204) || (code =? 205) || (code =? 304)) in
  let h := if has_body then
             h |> send_header "Content-Type" "text/html;charset=utf-8"
               |> send_header "Content-Length" (Str.str (Z.of_nat (String.length body)))
           else h in
  let h := end_headers h in
  if negb (String.eqb (command h) "HEAD") && has_body && negb (String.eqb body "")
  then write body h else h.

(** [buffered h lines h']: [h'] is [h] with [lines] added at the end of
    the header buffer, nothing written yet, the request unchanged. *)
Definition buffered (h : handler) (lines : list string) (h' : handler) : Prop :=
  command h' = command h /\
  request_version h' = request_version h /\
  version_string h' = version_string h /\
  date_time_string h' = date_time_string h /\
  wfile h' = wfile h /\
  headers_buffer h' = (headers_buffer h ++ lines)%list.

(** The success path of [SimpleHTTPRequestHandler.send_head], the
    caller of [guess_type] and [end_headers]: status 200, the content
    type [guess_type] gives for the file, its length and its
    modification time, then the end of the headers. *)
Definition send_head_ok (lookup : string -> option string * option string)
    (path size mtime : string) (h : handler) : handler :=
  h |> send_response 200 "OK"
    |> send_header "Content-type" (Mime.guess_type lookup path)
    |> send_header "Content-Length" size
    |> send_header "Last-Modified" mtime
    |> end_headers.

(** A fresh handler for an HTTP/1.1 GET request. *)
Definition sample : handler :=
  {| directory := "/srv/www"; command := "GET"; request_version := "HTTP/1.1";
     version_string := "SimpleHTTP/0.6 Python/3.12.0";
     date_time_string := "Thu, 01 Jan 2026 00:00:00 GMT";
     close_connection := true; headers_buffer := []; wfile := "" |}.

(** The handler as [parse_request] leaves it when the request line is
    malformed: no command yet, the version still the default HTTP/0.9;
    in this state [parse_request] calls [send_error] with 400 or 505. *)
Definition sample_bad_request : handler :=
  {| directory := "/srv/www"; command := ""; request_version := "HTTP/0.9";
     version_string := "SimpleHTTP/0.6 Python/3.12.0";
     date_time_string := "Thu, 01 Jan 2026 00:00:00 GMT";
     close_connection := true; headers_buffer := []; wfile := "" |}.

(** A handler for a request without a version, which is HTTP/0.9. *)
Definition sample_http09 : handler :=
  {| directory := "/srv/www"; command := "GET"; request_version := "HTTP/0.9";
     version_string := "SimpleHTTP/0.6 Python/3.12.0";
     date_time_string := "Thu, 01 Jan 2026 00:00:00 GMT";
     close_connection := true; headers_buffer := []; wfile := "" |}.

End Handler.

(** ** The process: [start_server] and the script body

    A run of the program is a computation over a [world]: the working
    directory of the process and the trace of what it has done so far
    (lines printed, the socket bound, connections served).  What the
    operating system answers is fixed by an [os] record.  [os.getcwd()]
    and [os.listdir('.')] are taken to return; exceptions, an interrupt
    among them, come from the bind and from the accept loop. *)

Module Proc.

Inductive exn :=
| KeyboardInterrupt
| OSError (errno : option Z) (text : string)   (* [e.errno] and [str(e)] *)
| OtherException (text : string).              (* any other subclass of Exception *)

Record request := {
  req_command : string;
  req_path : string;
  req_version : string
}.

Inductive event :=
| Printed (text : string)                (* one call of [print] *)
| Bind (port : Z)                        (* [bind] is called on [("", port)] *)
| Close                                  (* [server_close] *)
| ServeForever                           (* the accept loop is entered *)
| Serve (root : string) (r : request).   (* a handler is built for a connection *)

Record os := {
  path_exists : string -> bool;     (* [os.path.exists] *)
  listdir : string -> list string;  (* [os.listdir] *)
  bind_error : Z -> option exn;     (* what binding a port in 0..65535 raises, if anything *)
  connections : list request;       (* the connections accepted, in order *)
  serve_end : option exn            (* what ends the accept loop; [None]: nothing does *)
}.

Record world := {
  cwd : string;
  trace : list event
}.

(** How a computation ends: with a value, with an exception, by
    [sys.exit], or never. *)
Inductive result (A : Type) :=
| Return (a : A)
| Raise (e : exn)
| Exit (status : Z)
| Forever.
Arguments Return {A} a.
Arguments Raise {A} e.
Arguments Exit {A} status.
Arguments Forever {A}.

(** [e.errno == n], where [e.errno] may be [None]. *)
Definition errno_is (n : Z) (errno : option Z) : bool :=
  match errno with
  | Some m => m =? n
  | None => false
  end.

Definition io (A : Type) : Type := world -> result A * world.

Definition ret {A} (a : A) : io A := fun w => (Return a, w).

Definition bind {A B} (m : io A) (k : A -> io B) : io B :=
  fun w =>
    match m w with
    | (Return a, w') => k a w'
    | (Raise e, w') => (Raise e, w')
    | (Exit s, w') => (Exit s, w')
    | (Forever, w') => (Forever, w')
    end.

Notation "x <- m ;; k" := (bind m (fun x => k))
  (at level 61, m at next level, right associativity).
Notation "m ;; k" := (bind m (fun _ => k))
  (at level 61, right associativity).

Definition raise {A} (e : exn) : io A := fun w => (Raise e, w).

(** [try: body except ...: handler e]. *)
Definition try_except {A} (body : io A) (handler : exn -> io A) : io A :=
  fun w =>
    match body w with
    | (Raise e, w') => handler e w'
    | r => r
    end.

Definition emit (e : event) : io unit :=
  fun w => (Return tt, {| cwd := cwd w; trace := trace w ++ [e] |}).

Definition print (text : string) : io unit := emit (Printed text).

Definition os_getcwd : io string := fun w => (Return (cwd w), w).

Definition sys_exit {A} (status : Z) : io A := fun w => (Exit status, w).

Definition forever {A} : io A := fun w => (Forever, w).

(** [for x in xs: body x]. *)
Fixpoint for_each {A} (xs : list A) (body : A -> io unit) : io unit :=
  match xs with
  | [] => ret tt
  | x :: xs' => body x ;; for_each xs' body
  end.

Section Program.

Variable sys : os.

(** [CustomHTTPRequestHandler.__init__]: the handler of a connection
    is built with [directory=os.getcwd()] and serves the request. *)
Definition CustomHTTPRequestHandler_init (r : request) : io unit :=
  directory <- os_getcwd ;;
  emit (Serve directory r).

(** [socket.bind(("", port))]: a port outside 0..65535 is refused
    with an OverflowError; otherwise the system decides. *)
Definition socket_bind (port : Z) : option exn :=
  if (port <? 0) || (65535 <? port)
  then Some (OtherException "bind(): port must be 0-65535.")
  else bind_error sys port.

(** [socketserver.TCPServer(("", port), handler)]: the constructor
    binds the socket; on failure it closes the server and passes
    the exception on. *)
Definition TCPServer (port : Z) : io unit :=
  emit (Bind port) ;;
  match socket_bind port with
  | Some e => emit Close ;; raise e
  | None => ret tt
  end.

(** [httpd.serve_forever()]: one handler per accepted connection,
    until an exception ends the loop. *)
Definition serve_forever : io unit :=
  emit ServeForever ;;
  for_each (connections sys) CustomHTTPRequestHandler_init ;;
  match serve_end sys with
  | Some e => raise e
  | None => forever
  end.

(** [with socketserver.TCPServer(...) as httpd: body]: the server is
    closed when the body is left. *)
Definition with_TCPServer (port : Z) (body : io unit) : io unit :=
  TCPServer port ;;
  fun w =>
    match body w with
    | (Forever, w') => (Forever, w')
    | (r, w') => (r, {| cwd := cwd w'; trace := trace w' ++ [Close] |})
    end.

(** The [except] clauses of [start_server], in the order written:
    KeyboardInterrupt, OSError, Exception. *)
Definition except_clauses (port : Z) (e : exn) : io unit :=
  match e with
  | KeyboardInterrupt => print (Str.nl ++ "服务器已停止")
  | OSError errno text =>
      if errno_is 10048 errno then
        print ("错误: 端口 " ++ Str.str port ++ " 已被占用") ;;
        print ("请尝试使用其他端口，例如: python server.py " ++ Str.str (port + 1))
      else
        print ("启动服务器时出错: " ++ text)
  | OtherException text => print ("未知错误: " ++ text)
  end.

Definition start_server (port : Z) : io unit :=
  try_except
    ((if negb (path_exists sys "index.html") then
        print "警告: 当前目录中没有找到 index.html 文件" ;;
        d <- os_getcwd ;;
        print ("当前目录: " ++ d) ;;
        print "目录内容:" ;;
        for_each (listdir sys ".") (fun item => print ("  " ++ item))
      else ret tt) ;;
     with_TCPServer port
       (print (Str.nl ++ "=== HTTP服务器启动成功 ===") ;;
        print ("服务器地址: http://localhost:" ++ Str.str port) ;;
        d <- os_getcwd ;;
        print ("服务目录: " ++ d) ;;
        print ("按 Ctrl+C 停止服务器" ++ Str.nl) ;;
        serve_forever))
    (except_clauses port).

(** The built-in [int] on a string: [None] stands for ValueError. *)
Variable int : string -> option Z.

(** The body of the script, run with [sys.argv = argv]. *)
Definition main (argv : list string) : io unit :=
  let port := 8000 in
  port <- (if (1 <? Z.of_nat (List.length argv)) then
             match int (nth 1 argv "") with
             | Some n => ret n
             | None =>
                 print "错误: 端口号必须是数字" ;;
                 sys_exit 1
             end
           else ret port) ;;
  start_server port.

End Program.

(** The world at process start, in working directory [d]. *)
Definition startup (d : string) : world := {| cwd := d; trace := [] |}.

(** The exit status of the process, if it exits: 0 when the script
    runs to its end, the argument of [sys.exit], 1 for an exception
    nobody caught. *)
Definition exit_status {A} (r : result A) : option Z :=
  match r with
  | Return _ => Some 0
  | Exit s => Some s
  | Raise _ => Some 1
  | Forever => None
  end.

Definition run (sys : os) (int : string -> option Z) (d : string) (argv : list string)
  : result unit * world :=
  main sys int argv (startup d).

(** *** The traces of a start-up, spelled out

    These lists say what [start_server] is expected to leave in the
    trace; [start_server_run] below proves that it does. *)

Definition warning : string := "警告: 当前目录中没有找到 index.html 文件".

(** Printed when [index.html] is missing. *)
Definition diagnostics (sys : os) (d : string) : list event :=
  if path_exists sys "index.html" then []
  else [Printed warning; Printed ("当前目录: " ++ d); Printed "目录内容:"]
       ++ map (fun item => Printed ("  " ++ item)) (listdir sys ".").

(** Printed once the socket is bound. *)
Definition banner (d : string) (port : Z) : list event :=
  [ Printed (Str.nl ++ "=== HTTP服务器启动成功 ===");
    Printed ("服务器地址: http://localhost:" ++ Str.str port);
    Printed ("服务目录: " ++ d);
    Printed ("按 Ctrl+C 停止服务器" ++ Str.nl) ].

(** Printed by the handler of exception [e]. *)
Definition report (port : Z) (e : exn) : list event :=
  match e with
  | KeyboardInterrupt => [Printed (Str.nl ++ "服务器已停止")]
  | OSError errno text =>
      if errno_is 10048 errno then
        [ Printed ("错误: 端口 " ++ Str.str port ++ " 已被占用");
          Printed ("请尝试使用其他端口，例如: python server.py " ++ Str.str (port + 1)) ]
      else [Printed ("启动服务器时出错: " ++ text)]
  | OtherException text => [Printed ("未知错误: " ++ text)]
  end.

(** What follows the bind. *)
Definition after_bind (sys : os) (d : string) (port : Z) : list event :=
  match socket_bind sys port with
  | Some e => Close :: report port e
  | None =>
      banner d port ++ ServeForever :: map (Serve d) (connections sys)
      ++ match serve_end sys with
         | Some e => Close :: report port e
         | None => []
         end
  end.

(** How [start_server] ends: it returns, unless the socket is bound
    and nothing ever ends the accept loop. *)
Definition start_result (sys : os) (port : Z) : result unit :=
  match socket_bind sys port, serve_end sys with
  | None, None => Forever
  | _, _ => Return tt
  end.

(** The port the script asks for: the default, the argument, or
    [None] when [int] rejects the argument. *)
Definition requested_port (int : string -> option Z) (argv : list string) : option Z :=
  match argv with
  | _ :: arg :: _ => int arg
  | _ => Some 8000
  end.

Definition is_print (e : event) : bool :=
  match e with Printed _ => true | _ => false end.

(** Whether a printed line mentions [sub]. *)
Definition mentions (sub : string) (e : event) : bool :=
  match e with Printed text => Str.contains text sub | _ => false end.



Definition is_serve (e : event) : bool :=
  match e with Serve _ _ => true | _ => false end.

(** *** Sample environments *)

(** Plain decimal numerals, standing for [int] on such arguments. *)
Definition int_decimal (s : string) : option Z :=
  option_map Z.of_int (NilZero.int_of_string s).

Definition get_index : request :=
  {| req_command := "GET"; req_path := "/index.html"; req_version := "HTTP/1.1" |}.
Definition get_app_js : request :=
  {| req_command := "GET"; req_path := "/app.js"; req_version := "HTTP/1.1" |}.

(** A directory with [index.html], a free port, two requests, then Ctrl+C. *)
Definition os_ok : os :=
  {| path_exists := fun p => String.eqb p "index.html";
     listdir := fun _ => ["app.js"; "index.html"];
     bind_error := fun _ => None;
     connections := [get_index; get_app_js];
     serve_end := Some KeyboardInterrupt |}.

(** No [index.html]; the port is taken, reported the POSIX way. *)
Definition os_busy_posix : os :=
  {| path_exists := fun _ => false;
     listdir := fun _ => ["app.js"; "css"];
     bind_error := fun _ => Some (OSError (Some 98) "[Errno 98] Address already in use");
     connections := [];
     serve_end := None |}.

(** A free port; the accept loop dies of a connection error after one
    request. *)
Definition os_loop_error : os :=
  {| path_exists := fun p => String.eqb p "index.html";
     listdir := fun _ => ["index.html"];
     bind_error := fun _ => None;
     connections := [get_index];
     serve_end := Some (OSError (Some 24) "[Errno 24] Too many open files") |}.

(** The bind fails with an exception that is not an OSError. *)
Definition os_bind_odd : os :=
  {| path_exists := fun p => String.eqb p "index.html";
     listdir := fun _ => ["index.html"];
     bind_error := fun _ => Some (OtherException "out of memory");
     connections := [];
     serve_end := None |}.

(** The port is taken, reported the Windows way. *)
Definition os_busy_windows : os :=
  {| path_exists := fun p => String.eqb p "index.html";
     listdir := fun _ => ["index.html"];
     bind_error := fun _ => Some (OSError (Some 10048) "[WinError 10048] address in use");
     connections := [];
     serve_end := None |}.

End Proc.

(** ** The process when the system fails it

    [Proc] takes [os.getcwd()], [os.listdir('.')] and [print] to
    succeed and leaves the request log out.  Here each of them may
    raise, as they may inside the [try] of [start_server], and every
    request writes its log lines through [log_message].  Without faults
    and without log lines the two models agree ([fault_free_run]). *)

Module Full.

Import Proc.

(** One call of [log_message]: the time stamp the handler gives and the
    message, that is [format % args]. *)
Record log_call := {
  log_date_time_string : string;
  message : string
}.

Record os := {
  base : Proc.os;                       (* the answers of [Proc] *)
  getcwd_error : option exn;            (* what [os.getcwd()] raises, if anything *)
  listdir_error : option exn;           (* what [os.listdir('.')] raises, if anything *)
  print_error : string -> option exn;   (* what [print(text)] raises, if anything *)
  access_log : request -> list log_call (* the [log_message] calls a request causes *)
}.

Section Program.

Variable sys : os.

(** [print(text)]: the line is written, or the exception raised and
    nothing written. *)
Definition print (text : string) : io unit :=
  match print_error sys text with
  | Some e => raise e
  | None => Proc.print text
  end.

Definition os_getcwd : io string :=
  match getcwd_error sys with
  | Some e => raise e
  | None => Proc.os_getcwd
  end.

Definition os_listdir (path : string) : io (list string) :=
  match listdir_error sys with
  | Some e => raise e
  | None => ret (listdir (base sys) path)
  end.

(** [CustomHTTPRequestHandler.log_message]. *)
Definition log_message (c : log_call) : io unit :=
  print ("[" ++ log_date_time_string c ++ "] " ++ message c).

(** [CustomHTTPRequestHandler.__init__]: the handler is built with
    [directory=os.getcwd()]; the base class then handles the request,
    logging through [log_message]. *)
Definition CustomHTTPRequestHandler_init (r : request) : io unit :=
  directory <- os_getcwd ;;
  emit (Serve directory r) ;;
  for_each (access_log sys r) log_message.

(** [socketserver] around one connection: an exception of the handler
    that is a subclass of Exception is reported on stderr and dropped;
    an interrupt passes. *)
Definition process_request (r : request) : io unit :=
  try_except (CustomHTTPRequestHandler_init r)
    (fun e =>
       match e with
       | KeyboardInterrupt => raise e
       | _ => ret tt
       end).

Definition serve_forever : io unit :=
  emit ServeForever ;;
  for_each (connections (base sys)) process_request ;;
  match serve_end (base sys) with
  | Some e => raise e
  | None => forever
  end.

(** Lines 52-57 of [start_server]. *)
Definition startup_check : io unit :=
  if negb (path_exists (base sys) "index.html") then
    print "警告: 当前目录中没有找到 index.html 文件" ;;
    d <- os_getcwd ;;
    print ("当前目录: " ++ d) ;;
    print "目录内容:" ;;
    items <- os_listdir "." ;;
    for_each items (fun item => print ("  " ++ item))
  else ret tt.

(** Lines 60-67 of [start_server]. *)
Definition serve (port : Z) : io unit :=
  with_TCPServer (base sys) port
    (print (Str.nl ++ "=== HTTP服务器启动成功 ===") ;;
     print ("服务器地址: http://localhost:" ++ Str.str port) ;;
     d <- os_getcwd ;;
     print ("服务目录: " ++ d) ;;
     print ("按 Ctrl+C 停止服务器" ++ Str.nl) ;;
     serve_forever).

(** Lines 69-78 of [start_server]. *)
Definition except_clauses (port : Z) (e : exn) : io unit :=
  match e with
  | KeyboardInterrupt => print (Str.nl ++ "服务器已停止")
  | OSError errno text =>
      if errno_is 10048 errno then
        print ("错误: 端口 " ++ Str.str port ++ " 已被占用") ;;
        print ("请尝试使用其他端口，例如: python server.py " ++ Str.str (port + 1))
      else
        print ("启动服务器时出错: " ++ text)
  | OtherException text => print ("未知错误: " ++ text)
  end.

Definition start_server (port : Z) : io unit :=
  try_except (startup_check ;; serve port) (except_clauses port).

Variable int : string -> option Z.

Definition main (argv : list string) : io unit :=
  let port := 8000 in
  port <- (if (1 <? Z.of_nat (List.length argv)) then
             match int (nth 1 argv "") with
             | Some n => ret n
             | None =>
                 print "错误: 端口号必须是数字" ;;
                 sys_exit 1
             end
           else ret port) ;;
  start_server port.

End Program.

Definition run (sys : os) (int : string -> option Z) (d : string) (argv : list string)
  : result unit * world :=
  main sys int argv (startup d).

(** Every line of [texts] can be printed. *)
Definition printable (sys : os) (texts : list event) : Prop :=
  forall text, In (Printed text) texts -> print_error sys text = None.

(** The check of lines 52-57 goes through: [index.html] is there, or
    the directory can be read and every line of the listing printed. *)
Definition check_passes (sys : os) (d : string) : Prop :=
  path_exists (base sys) "index.html" = true
  \/ (getcwd_error sys = None /\ listdir_error sys = None
      /\ printable sys (diagnostics (base sys) d)).

(** The banner of lines 61-64 goes through. *)
Definition banner_passes (sys : os) (d : string) (port : Z) : Prop :=
  getcwd_error sys = None /\ printable sys (banner d port).

(** The world [w] after the events [l]. *)
Definition extend (w : world) (l : list event) : world :=
  {| cwd := cwd w; trace := trace w ++ l |}.

(** What printing [texts] in turn writes, and how it ends: the first
    line that cannot be printed stops it. *)
Fixpoint print_all (sys : os) (texts : list string) : result unit * list event :=
  match texts with
  | [] => (Return tt, [])
  | text :: rest =>
      match print_error sys text with
      | Some e => (Raise e, [])
      | None => let (r, l) := print_all sys rest in (r, Printed text :: l)
      end
  end.

(** The lines that may be printed once the socket is bound: the banner,
    the request log, the report of an exception. *)
Definition late_line (d : string) (port : Z) (text : string) : Prop :=
  In (Printed text) (banner d port)
  \/ (exists c, text = "[" ++ log_date_time_string c ++ "] " ++ message c)
  \/ (exists e, In (Printed text) (report port e)).

(** A system without faults and without request log. *)
Definition fault_free (b : Proc.os) : os :=
  {| base := b; getcwd_error := None; listdir_error := None;
     print_error := fun _ => None; access_log := fun _ => [] |}.

(** The working directory is gone: [os.getcwd()] raises. *)
Definition os_no_cwd : os :=
  {| base := os_busy_posix;
     getcwd_error := Some (OSError (Some 2) "[Errno 2] No such file or directory");
     listdir_error := Some (OSError (Some 2) "[Errno 2] No such file or directory: '.'");
     print_error := fun _ => None;
     access_log := fun _ => [] |}.

(** A served directory; each request logs one line. *)
Definition os_logging : os :=
  {| base := os_ok; getcwd_error := None; listdir_error := None;
     print_error := fun _ => None;
     access_log := fun r =>
       [ {| log_date_time_string := "01/Jan/2026 00:00:00";
            message := String (ascii_of_nat 34) (req_command r ++ " " ++ req_path r ++ " "
                         ++ req_version r ++ String (ascii_of_nat 34) " 200 -") |} ] |}.

(** No [index.html], and a file whose name cannot be printed. *)
Definition os_odd_name : os :=
  {| base := os_busy_posix; getcwd_error := None; listdir_error := None;
     print_error := fun text =>
       if String.eqb text "  css" then Some (OtherException "'utf-8' codec can't encode")
       else None;
     access_log := fun _ => [] |}.

End Full.

(** * Properties *)

(** ** Strings *)

Section StrFacts.

Lemma append_nil_r (s : string) : s ++ "" = s.
Proof. induction s as [|c s IH]; simpl; [reflexivity | now rewrite IH]. Qed.


Lemma length_append (a b : string) :
  String.length (a ++ b) = (String.length a + String.length b)%nat.
Proof. induction a as [|x a IH]; simpl; [reflexivity | now rewrite IH]. Qed.

Lemma length_zero (s : string) : String.length s = 0%nat -> s = "".
Proof. destruct s; [reflexivity | discriminate]. Qed.

Lemma endswith_unfold (s suffix : string) :
  Str.endswith s suffix =
  if String.eqb s suffix then true
  else match s with
       | EmptyString => false
       | String _ s' => Str.endswith s' suffix
       end.
Proof. destruct s; reflexivity. Qed.

(** [endswith] is the suffix relation. *)
Lemma endswith_iff (s suffix : string) :
  Str.endswith s suffix = true <-> exists pre, s = pre ++ suffix.
Proof.
  split.
  - induction s as [|c s IH]; rewrite endswith_unfold.
    + destruct (String.eqb_spec "" suffix) as [E|E]; intro H;
        [exists ""; exact E | discriminate].
    + destruct (String.eqb_spec (String c s) suffix) as [E|E]; intro H.
      * exists ""; exact E.
      * destruct (IH H) as [pre ->]. now exists (String c pre).
  - intros [pre ->].
    induction pre as [|c pre IH].
    + simpl. rewrite endswith_unfold, String.eqb_refl. reflexivity.
    + change (String c pre ++ suffix) with (String c (pre ++ suffix)).
      rewrite endswith_unfold.
      destruct (String.eqb (String c (pre ++ suffix)) suffix);
        [reflexivity | exact IH].
Qed.

Lemma endswith_false (s suffix : string) :
  Str.endswith s suffix = false <-> ~ exists pre, s = pre ++ suffix.
Proof.
  rewrite <- endswith_iff.
  destruct (Str.endswith s suffix); split; intro H;
    first [reflexivity | discriminate | now elim H].
Qed.

(** Two suffixes of one string: the shorter is a suffix of the longer. *)
Lemma suffixes_nest (p a q b : string) :
  p ++ a = q ++ b ->
  (String.length a <= String.length b)%nat ->
  exists r, b = r ++ a.
Proof.
  revert q; induction p as [|c p IH]; intros q E L.
  - simpl in E. subst a. rewrite length_append in L.
    assert (q = "") as -> by (apply length_zero; lia).
    now exists "".
  - destruct q as [|c' q]; simpl in E.
    + exists (String c p). now rewrite <- E.
    + injection E as _ E. exact (IH q E L).
Qed.

Lemma suffix_same_length (r a b : string) :
  b = r ++ a -> String.length a = String.length b -> b = a.
Proof.
  intros -> L. rewrite length_append in L.
  assert (r = "") as -> by (apply length_zero; lia).
  reflexivity.
Qed.

Lemma lower_append (a b : string) :
  Str.lower (a ++ b) = Str.lower a ++ Str.lower b.
Proof. induction a as [|c a IH]; simpl; [reflexivity | now rewrite IH]. Qed.

Lemma lower_length (s : string) : String.length (Str.lower s) = String.length s.
Proof. induction s as [|c s IH]; simpl; [reflexivity | now rewrite IH]. Qed.

End StrFacts.

(** ** MIME types *)

Section MimeFacts.

Import Mime.

Variable lookup : string -> option string * option string.

(** No special suffix ends another one. *)
Lemma special_suffixes_apart (a b : string) :
  In a special_suffixes -> In b special_suffixes ->
  Str.endswith a b = true -> a = b.
Proof.
  unfold special_suffixes; simpl.
  intros [<-|[<-|[<-|[<-|[]]]]] [<-|[<-|[<-|[<-|[]]]]] H;
    first [reflexivity | vm_compute in H; discriminate H].
Qed.

Lemma special_suffixes_lower (a : string) :
  In a special_suffixes -> Str.lower a = a.
Proof.
  unfold special_suffixes; simpl.
  intros [<-|[<-|[<-|[<-|[]]]]]; reflexivity.
Qed.

(** A path ends with at most one special suffix. *)
Lemma special_suffix_unique (path a b : string) :
  In a special_suffixes -> In b special_suffixes ->
  Str.endswith path a = true -> Str.endswith path b = true -> a = b.
Proof.
  intros Ia Ib Ha Hb.
  apply endswith_iff in Ha as [p Ep], Hb as [q Eq].
  destruct (Nat.le_ge_cases (String.length a) (String.length b)) as [L|L].
  - destruct (suffixes_nest p a q b) as [r E]; [congruence | exact L |].
    symmetry. apply special_suffixes_apart; trivial.
    apply endswith_iff. now exists r.
  - destruct (suffixes_nest q b p a) as [r E]; [congruence | exact L |].
    apply special_suffixes_apart; trivial.
    apply endswith_iff. now exists r.
Qed.

(** The code's chain of tests, read as a table lookup. *)
Lemma guess_type_policy (path suffix ctype : string) :
  In (suffix, ctype) policy ->
  Str.endswith path suffix = true ->
  guess_type lookup path = ctype.
Proof.
  intros Hin Hend. unfold guess_type.
  destruct (lookup path) as [mimetype encoding].
  assert (Hs : In suffix special_suffixes).
  { unfold policy, special_suffixes in *; simpl in *.
    intuition (try congruence); inversion H; subst; auto. }
  assert (U : forall b, In b special_suffixes -> b <> suffix ->
                        Str.endswith path b = false).
  { intros b Hb Hne. destruct (Str.endswith path b) eqn:E; [|reflexivity].
    elim Hne. exact (special_suffix_unique path b suffix Hb Hs E Hend). }
  unfold policy in Hin; simpl in Hin.
  destruct Hin as [H|[H|[H|[H|[]]]]]; inversion H; subst; clear H.
  - now rewrite Hend.
  - rewrite (U ".js"), Hend; [reflexivity | simpl; auto | discriminate].
  - rewrite (U ".js"), (U ".css"), Hend;
      [reflexivity | simpl; auto | discriminate | simpl; auto | discriminate].
  - rewrite (U ".js"), (U ".css"), (U ".html"), Hend;
      [reflexivity | simpl; auto | discriminate | simpl; auto | discriminate
       | simpl; auto | discriminate].
Qed.

(** Off the special suffixes the result is [mimetype or
    'application/octet-stream']. *)
Lemma guess_type_fallback (path : string) :
  (forall s, In s special_suffixes -> Str.endswith path s = false) ->
  guess_type lookup path = py_or (fst (lookup path)) "application/octet-stream".
Proof.
  intro H. unfold guess_type.
  destruct (lookup path) as [mimetype encoding]; simpl.
  rewrite !H by (unfold special_suffixes; simpl; auto 6).
  reflexivity.
Qed.

Lemma py_or_nonempty (x : option string) (default : string) :
  x <> Some "" ->
  py_or x default = match x with Some m => m | None => default end.
Proof.
  destruct x as [m|]; simpl; [|reflexivity].
  intro H. destruct (String.eqb_spec m ""); [subst; now elim H | reflexivity].
Qed.

(** An empty string from the lookup counts as no result. *)
Lemma guess_type_empty_lookup (path : string) (encoding : option string) :
  (forall s, In s special_suffixes -> Str.endswith path s = false) ->
  lookup path = (Some "", encoding) ->
  guess_type lookup path = "application/octet-stream".
Proof.
  intros H E. rewrite guess_type_fallback by exact H. now rewrite E.
Qed.

(** A suffix that is a special one up to letter case, but not that
    special suffix itself, excludes all four special suffixes. *)
Lemma case_variant_not_special (path suffix variant : string) :
  In suffix special_suffixes ->
  variant <> suffix ->
  Str.lower variant = Str.lower suffix ->
  Str.endswith path variant = true ->
  forall s, In s special_suffixes -> Str.endswith path s = false.
Proof.
  intros Hs Hne Hlow Hend s Hin.
  destruct (Str.endswith path s) eqn:E; [exfalso | reflexivity].
  apply endswith_iff in Hend as [p Ep], E as [q Eq].
  rewrite (special_suffixes_lower _ Hs) in Hlow.
  assert (Hlen : String.length variant = String.length suffix)
    by (rewrite <- Hlow; symmetry; apply lower_length).
  destruct (Nat.le_ge_cases (String.length variant) (String.length s)) as [L|L].
  - destruct (suffixes_nest p variant q s) as [r E]; [congruence | exact L |].
    assert (Es : s = suffix).
    { apply special_suffixes_apart; trivial. apply endswith_iff.
      exists (Str.lower r).
      rewrite <- (special_suffixes_lower _ Hin), E, lower_append, Hlow.
      reflexivity. }
    rewrite Es in E. apply Hne. symmetry.
    apply (suffix_same_length r); [exact E | exact Hlen].
  - destruct (suffixes_nest q s p variant) as [r E]; [congruence | exact L |].
    assert (Es : suffix = s).
    { apply special_suffixes_apart; trivial. apply endswith_iff.
      exists (Str.lower r).
      rewrite <- Hlow, E, lower_append, (special_suffixes_lower _ Hin).
      reflexivity. }
    rewrite <- Es in E. apply Hne.
    apply (suffix_same_length r); [exact E | now symmetry].
Qed.

End MimeFacts.

(** ** Response headers *)

Section HandlerFacts.

Import Handler.

Lemma buffered_refl (h : handler) : buffered h [] h.
Proof. unfold buffered. rewrite app_nil_r. tauto. Qed.

Lemma buffered_trans (h h1 h2 : handler) (l1 l2 : list string) :
  buffered h l1 h1 -> buffered h1 l2 h2 -> buffered h (l1 ++ l2) h2.
Proof.
  unfold buffered. intros (A1 & A2 & A3 & A4 & A5 & A6) (B1 & B2 & B3 & B4 & B5 & B6).
  rewrite B1, B2, B3, B4, B5, B6, A6, app_assoc. tauto.
Qed.

Lemma send_header_buffered (keyword value : string) (h : handler) :
  request_version h <> "HTTP/0.9" ->
  buffered h [header_line keyword value] (send_header keyword value h).
Proof.
  intro V. apply String.eqb_neq in V. unfold send_header. rewrite V.
  destruct (String.eqb (Str.lower keyword) "connection");
    [destruct (String.eqb (Str.lower value) "close");
     [|destruct (String.eqb (Str.lower value) "keep-alive")] |];
    unfold buffered; simpl; tauto.
Qed.

Lemma send_response_only_buffered (code : Z) (message : string) (h : handler) :
  request_version h <> "HTTP/0.9" ->
  buffered h [status_line code message] (send_response_only code message h).
Proof.
  intro V. apply String.eqb_neq in V. unfold send_response_only. rewrite V.
  unfold buffered; simpl; tauto.
Qed.

Lemma buffered_version (h h' : handler) (l : list string) :
  buffered h l h' -> request_version h <> "HTTP/0.9" -> request_version h' <> "HTTP/0.9".
Proof. intros (_ & E & _) V. now rewrite E. Qed.

Lemma send_response_buffered (code : Z) (message : string) (h : handler) :
  request_version h <> "HTTP/0.9" ->
  buffered h (lines_of h (SendResponse code message)) (send_response code message h).
Proof.
  intro V. unfold send_response, lines_of.
  pose proof (send_response_only_buffered code message h V) as B1.
  pose proof (send_header_buffered "Server" (version_string h) _
                (buffered_version _ _ _ B1 V)) as B2.
  pose proof (buffered_trans _ _ _ _ _ B1 B2) as B12.
  pose proof (send_header_buffered "Date" (date_time_string h) _
                (buffered_version _ _ _ B12 V)) as B3.
  exact (buffered_trans _ _ _ _ _ B12 B3).
Qed.

Lemma call_buffered (c : header_call) (h : handler) :
  request_version h <> "HTTP/0.9" ->
  buffered h (lines_of h c) (call c h).
Proof.
  intro V. destruct c; simpl call.
  - now apply send_response_only_buffered.
  - now apply send_response_buffered.
  - now apply send_header_buffered.
Qed.

Lemma lines_of_buffered (h h' : handler) (l : list string) (c : header_call) :
  buffered h l h' -> lines_of h' c = lines_of h c.
Proof.
  intros (_ & _ & E1 & E2 & _). destruct c; simpl; now rewrite ?E1, ?E2.
Qed.

Lemma calls_buffered (calls : list header_call) (h : handler) :
  request_version h <> "HTTP/0.9" ->
  buffered h (flat_map (lines_of h) calls) (fold_left (fun h c => call c h) calls h).
Proof.
  intro V.
  enough (G : forall h0 l, buffered h l h0 ->
            buffered h (l ++ flat_map (lines_of h) calls)
                     (fold_left (fun h c => call c h) calls h0))
    by exact (G h [] (buffered_refl h)).
  induction calls as [|c calls IH]; intros h0 l B; simpl.
  - now rewrite app_nil_r.
  - rewrite app_assoc. apply IH.
    apply (buffered_trans _ _ _ _ _ B).
    rewrite <- (lines_of_buffered _ _ _ c B).
    apply call_buffered. exact (buffered_version _ _ _ B V).
Qed.

(** The override writes the buffered lines, the three CORS lines and
    the blank line, and leaves the buffer empty. *)
Lemma end_headers_writes (h : handler) :
  request_version h <> "HTTP/0.9" ->
  wfile (end_headers h) =
    wfile h ++ String.concat "" (headers_buffer h ++ cors_lines ++ [crlf])
  /\ headers_buffer (end_headers h) = []
  /\ command (end_headers h) = command h.
Proof.
  intro V. unfold end_headers.
  pose proof (send_header_buffered "Access-Control-Allow-Origin" "*" h V) as B1.
  pose proof (send_header_buffered "Access-Control-Allow-Methods" "GET, POST, OPTIONS" _
                (buffered_version _ _ _ B1 V)) as B2.
  pose proof (buffered_trans _ _ _ _ _ B1 B2) as B12.
  pose proof (send_header_buffered "Access-Control-Allow-Headers" "Content-Type" _
                (buffered_version _ _ _ B12 V)) as B3.
  pose proof (buffered_trans _ _ _ _ _ B12 B3) as B.
  set (h3 := send_header "Access-Control-Allow-Headers" "Content-Type" _) in *.
  pose proof (buffered_version _ _ _ B V) as V3. apply String.eqb_neq in V3.
  destruct B as (C & _ & _ & _ & W & H).
  unfold super_end_headers. rewrite V3. unfold flush_headers; simpl.
  rewrite W, H, C. simpl app. rewrite <- app_assoc. simpl app. tauto.
Qed.

Lemma respond_writes (calls : list header_call) (h : handler) :
  request_version h <> "HTTP/0.9" ->
  wfile (respond calls h) =
    wfile h ++ String.concat ""
      (headers_buffer h ++ flat_map (lines_of h) calls ++ cors_lines ++ [crlf]).
Proof.
  intro V. unfold respond.
  pose proof (calls_buffered calls h V) as B.
  destruct (end_headers_writes _ (buffered_version _ _ _ B V)) as (W & _).
  destruct B as (_ & _ & _ & _ & W0 & H0).
  rewrite W, W0, H0, <- app_assoc. reflexivity.
Qed.

(** [send_error] as a series of header calls closed by [end_headers],
    followed by the page. *)
Lemma send_error_unfold (code : Z) (message body : string) (h : handler) :
  send_error code message body h =
    let has_body := (200 <=? code) && negb ((code =? 204) || (code =? 205) || (code =? 304)) in
    let r := respond
               ([SendResponse code message; SendHeader "Connection" "close"]
                ++ if has_body
                   then [ SendHeader "Content-Type" "text/html;charset=utf-8";
                          SendHeader "Content-Length"
                            (Str.str (Z.of_nat (String.length body))) ]
                   else []) h in
    if negb (String.eqb (command r) "HEAD") && has_body && negb (String.eqb body "")
    then write body r else r.
Proof.
  unfold send_error, respond. cbv zeta.
  destruct ((200 <=? code) && negb ((code =? 204) || (code =? 205) || (code =? 304)));
    cbn [app fold_left call]; cbv iota; reflexivity.
Qed.



(** A request of version HTTP/0.9 gets a response without any header
    section: nothing is buffered and nothing is written. *)
Lemma respond_http09 (calls : list header_call) (h : handler) :
  request_version h = "HTTP/0.9" ->
  wfile (respond calls h) = wfile h /\ headers_buffer (respond calls h) = headers_buffer h.
Proof.
  intro V.
  assert (SH : forall k v h0, request_version h0 = "HTTP/0.9" ->
             request_version (send_header k v h0) = "HTTP/0.9"
             /\ wfile (send_header k v h0) = wfile h0
             /\ headers_buffer (send_header k v h0) = headers_buffer h0).
  { intros k v h0 V0. unfold send_header. rewrite V0. simpl.
    destruct (String.eqb (Str.lower k) "connection");
      [destruct (String.eqb (Str.lower v) "close");
       [|destruct (String.eqb (Str.lower v) "keep-alive")] |]; simpl; auto. }
  assert (CL : forall c h0, request_version h0 = "HTTP/0.9" ->
             request_version (call c h0) = "HTTP/0.9"
             /\ wfile (call c h0) = wfile h0
             /\ headers_buffer (call c h0) = headers_buffer h0).
  { intros c h0 V0. destruct c; simpl call.
    - unfold send_response_only. rewrite V0. simpl. auto.
    - unfold send_response, send_response_only. rewrite V0. simpl.
      destruct (SH "Server" (version_string h0) h0 V0) as (a1 & a2 & a3).
      destruct (SH "Date" (date_time_string h0) _ a1) as (b1 & b2 & b3).
      rewrite b1, b2, b3, a2, a3. auto.
    - now apply SH. }
  unfold respond.
  assert (F : forall h0, request_version h0 = "HTTP/0.9" ->
            request_version (fold_left (fun h c => call c h) calls h0) = "HTTP/0.9"
            /\ wfile (fold_left (fun h c => call c h) calls h0) = wfile h0
            /\ headers_buffer (fold_left (fun h c => call c h) calls h0) = headers_buffer h0).
  { induction calls as [|c calls IH]; intros h0 V0; simpl; [auto|].
    destruct (CL c h0 V0) as (a1 & a2 & a3).
    destruct (IH _ a1) as (b1 & b2 & b3). rewrite b1, b2, b3. auto. }
  destruct (F h V) as (a1 & a2 & a3).
  unfold end_headers.
  destruct (SH "Access-Control-Allow-Origin" "*" _ a1) as (b1 & b2 & b3).
  destruct (SH "Access-Control-Allow-Methods" "GET, POST, OPTIONS" _ b1) as (c1 & c2 & c3).
  destruct (SH "Access-Control-Allow-Headers" "Content-Type" _ c1) as (d1 & d2 & d3).
  unfold super_end_headers. rewrite d1. simpl.
  rewrite d2, d3, c2, c3, b2, b3. auto.
Qed.

Lemma send_header_command (keyword value : string) (h : handler) :
  command (send_header keyword value h) = command h.
Proof.
  unfold send_header.
  destruct (String.eqb (request_version h) "HTTP/0.9");
    (destruct (String.eqb (Str.lower keyword) "connection");
     [destruct (String.eqb (Str.lower value) "close");
      [|destruct (String.eqb (Str.lower value) "keep-alive")] |]);
    reflexivity.
Qed.

Lemma call_command (c : header_call) (h : handler) :
  command (call c h) = command h.
Proof.
  destruct c; cbn [call].
  - unfold send_response_only.
    destruct (String.eqb (request_version h) "HTTP/0.9"); reflexivity.
  - unfold send_response. rewrite !send_header_command.
    unfold send_response_only.
    destruct (String.eqb (request_version h) "HTTP/0.9"); reflexivity.
  - apply send_header_command.
Qed.

Lemma respond_keeps_command (calls : list header_call) (h : handler) :
  command (respond calls h) = command h.
Proof.
  unfold respond.
  assert (F : command (fold_left (fun h c => call c h) calls h) = command h).
  { revert h. induction calls as [|c calls IH]; intro h; cbn [fold_left];
      [reflexivity | now rewrite IH, call_command]. }
  rewrite <- F. generalize (fold_left (fun h c => call c h) calls h). intro g.
  unfold end_headers, super_end_headers.
  match goal with
  | |- context [if ?c then _ else _] => destruct c
  end; unfold flush_headers; cbn [command set_buffer write];
    now rewrite !send_header_command.
Qed.

(** While the version is HTTP/0.9, [send_error] writes the page alone:
    no status line and no header. *)
Lemma send_error_http09 (code : Z) (message body : string) (h : handler) :
  request_version h = "HTTP/0.9" ->
  wfile (send_error code message body h) =
    (wfile h ++
     (if negb (String.eqb (command h) "HEAD")
         && ((200 <=? code) && negb ((code =? 204) || (code =? 205) || (code =? 304)))
         && negb (String.eqb body "")
      then body else "")).
Proof.
  intro V. rewrite send_error_unfold. cbv zeta.
  rewrite respond_keeps_command.
  match goal with
  | |- context [if ?c then write body ?r else ?r] => destruct c
  end; cbn [wfile write]; rewrite (proj1 (respond_http09 _ h V));
    [reflexivity | now rewrite append_nil_r].
Qed.

End HandlerFacts.

(** ** Runs of the process *)

Section ProcFacts.

Import Proc.

Variable sys : os.

Lemma world_eta (w : world) : {| cwd := cwd w; trace := trace w |} = w.
Proof. now destruct w. Qed.

Lemma for_each_emit {A} (f : A -> event) (xs : list A) (w : world) :
  for_each xs (fun x => emit (f x)) w =
    (Return tt, {| cwd := cwd w; trace := trace w ++ map f xs |}).
Proof.
  revert w; induction xs as [|x xs IH]; intro w; simpl.
  - unfold ret. now rewrite app_nil_r, world_eta.
  - unfold bind at 1, emit at 1. rewrite IH. simpl.
    now rewrite <- app_assoc.
Qed.

(** Every connection is served from the working directory. *)
Lemma for_each_handler (rs : list request) (w : world) :
  for_each rs CustomHTTPRequestHandler_init w =
    (Return tt, {| cwd := cwd w; trace := trace w ++ map (Serve (cwd w)) rs |}).
Proof.
  revert w; induction rs as [|r rs IH]; intro w; simpl.
  - unfold ret. now rewrite app_nil_r, world_eta.
  - unfold bind at 1, CustomHTTPRequestHandler_init, bind, os_getcwd, emit.
    rewrite IH. simpl. now rewrite <- app_assoc.
Qed.

Lemma diagnostics_run (w : world) :
  (if negb (path_exists sys "index.html") then
     print "警告: 当前目录中没有找到 index.html 文件" ;;
     d <- os_getcwd ;;
     print ("当前目录: " ++ d) ;;
     print "目录内容:" ;;
     for_each (listdir sys ".") (fun item => print ("  " ++ item))
   else ret tt) w =
  (Return tt, {| cwd := cwd w; trace := trace w ++ diagnostics sys (cwd w) |}).
Proof.
  unfold diagnostics. destruct (path_exists sys "index.html"); simpl.
  - unfold ret. now rewrite app_nil_r, world_eta.
  - unfold bind, print, os_getcwd, emit at 1 2 3. simpl.
    change (fun item : string => emit (Printed ("  " ++ item)))
      with (fun item : string => emit ((fun i => Printed ("  " ++ i)) item)).
    rewrite for_each_emit. simpl. rewrite <- !app_assoc. reflexivity.
Qed.

Lemma serve_forever_run (w : world) :
  serve_forever sys w =
    (match serve_end sys with Some e => Raise e | None => Forever end,
     {| cwd := cwd w;
        trace := trace w ++ ServeForever :: map (Serve (cwd w)) (connections sys) |}).
Proof.
  unfold serve_forever, bind, emit. rewrite for_each_handler. simpl.
  rewrite <- app_assoc. simpl.
  destruct (serve_end sys); reflexivity.
Qed.

Lemma handler_run (port : Z) (e : exn) (w : world) :
  except_clauses port e w =
    (Return tt, {| cwd := cwd w; trace := trace w ++ report port e |}).
Proof.
  unfold except_clauses.
  destruct e as [|errno text|text]; simpl; try reflexivity.
  destruct (errno_is 10048 errno); [|reflexivity].
  unfold bind, print, emit. simpl. now rewrite <- app_assoc.
Qed.

(** The trace and the result of [start_server] at process start. *)
Lemma start_server_run (port : Z) (d : string) :
  start_server sys port (startup d) =
    (start_result sys port,
     {| cwd := d; trace := diagnostics sys d ++ Bind port :: after_bind sys d port |}).
Proof.
  unfold start_server, try_except.
  unfold bind at 1. rewrite diagnostics_run. simpl cwd. simpl trace.
  unfold with_TCPServer, TCPServer, start_result, after_bind.
  destruct (socket_bind sys port) as [e|].
  - unfold bind, emit, raise. simpl. rewrite handler_run. simpl.
    rewrite <- !app_assoc. reflexivity.
  - cbv beta iota delta [bind print os_getcwd emit ret cwd trace].
    rewrite serve_forever_run. cbv beta iota delta [cwd trace].
    destruct (serve_end sys) as [e|].
    + rewrite handler_run. cbv beta iota delta [cwd trace]. unfold banner.
      repeat (rewrite <- app_assoc; cbn [app]). reflexivity.
    + unfold banner. repeat (rewrite <- app_assoc; cbn [app]).
      rewrite app_nil_r. reflexivity.
Qed.

Lemma requested_port_nth (int : string -> option Z) (argv : list string) :
  requested_port int argv =
    if 1 <? Z.of_nat (List.length argv) then int (nth 1 argv "") else Some 8000.
Proof.
  destruct argv as [|a0 [|a1 rest]]; try reflexivity.
  cbn [List.length nth requested_port].
  destruct (Z.ltb_spec 1 (Z.of_nat (S (S (List.length rest))))); [reflexivity | lia].
Qed.

(** The script: a rejected argument ends the process at once; otherwise
    the run is that of [start_server]. *)
Lemma main_run (int : string -> option Z) (d : string) (argv : list string) :
  run sys int d argv =
    match requested_port int argv with
    | None => (Exit 1, {| cwd := d; trace := [Printed "错误: 端口号必须是数字"] |})
    | Some port => start_server sys port (startup d)
    end.
Proof.
  rewrite requested_port_nth. unfold run, main.
  destruct (1 <? Z.of_nat (List.length argv)); [|reflexivity].
  destruct (int (nth 1 argv "")); reflexivity.
Qed.

Lemma diagnostics_prints (d : string) (e : event) :
  In e (diagnostics sys d) -> is_print e = true.
Proof.
  unfold diagnostics. destruct (path_exists sys "index.html"); [intros []|].
  intro H. apply in_app_or in H as [H|H].
  - simpl in H. decompose [or] H; subst; try reflexivity; contradiction.
  - apply in_map_iff in H as (item & <- & _). reflexivity.
Qed.

Lemma report_prints (port : Z) (x : exn) (e : event) :
  In e (report port x) -> is_print e = true.
Proof.
  destruct x as [|errno text|text]; simpl;
    [| destruct (errno_is 10048 errno); simpl |];
    intro H; decompose [or] H; subst; try reflexivity; contradiction.
Qed.

(** Whatever is reported, a printed line ends the trace. *)
Lemma report_last (port : Z) (x : exn) (pre : list event) :
  exists text, forall dflt, last (pre ++ Close :: report port x) dflt = Printed text.
Proof.
  assert (E : exists init text, report port x = (init ++ [Printed text])%list).
  { destruct x as [|errno text|text]; simpl;
      [| destruct (errno_is 10048 errno) |].
    - now exists [], (Str.nl ++ "服务器已停止")%string.
    - now exists [Printed ("错误: 端口 " ++ Str.str port ++ " 已被占用")],
        ("请尝试使用其他端口，例如: python server.py " ++ Str.str (port + 1))%string.
    - now exists [], ("启动服务器时出错: " ++ text)%string.
    - now exists [], ("未知错误: " ++ text)%string. }
  destruct E as (init & text & ->). exists text. intro dflt.
  change (pre ++ Close :: init ++ [Printed text])%list
    with (pre ++ (Close :: init) ++ [Printed text])%list.
  rewrite app_assoc. apply last_last.
Qed.

End ProcFacts.


(** ** The claims *)

(** C1. For every path ending in one of the four supported suffixes,
    [guess_type] returns the content type the MIME inference policy
    gives for that suffix ('.js': 'text/javascript', '.css': 'text/css',
    '.html': 'text/html; charset=utf-8', '.json': 'application/json'),
    whatever the general lookup returns for the path. *)
Theorem guess_type_special_suffix
    (lookup : string -> option string * option string)
    (path suffix ctype : string) :
  In (suffix, ctype) Mime.policy ->
  Str.endswith path suffix = true ->
  Mime.guess_type lookup path = ctype.
Proof. apply guess_type_policy. Qed.

Lemma guess_type_special_suffix_witness :
  In (".html", "text/html; charset=utf-8") Mime.policy
  /\ Str.endswith "/docs/index.html" ".html" = true
  /\ Mime.guess_type Mime.sample_lookup "/docs/index.html" = "text/html; charset=utf-8".
Proof.
  assert (I : In (".html", "text/html; charset=utf-8") Mime.policy)
    by (simpl; auto).
  assert (E : Str.endswith "/docs/index.html" ".html" = true) by reflexivity.
  exact (conj I (conj E
    (guess_type_special_suffix Mime.sample_lookup "/docs/index.html" _ _ I E))).
Defined.

(** C7. For every path that ends in none of the four special suffixes,
    [guess_type] returns the general lookup's result for the path, or
    'application/octet-stream' when the lookup yields no match.  The
    lookup's result is a MIME type or nothing, never the empty string. *)
Theorem guess_type_general_lookup
    (lookup : string -> option string * option string) (path : string) :
  (forall s, In s Mime.special_suffixes -> Str.endswith path s = false) ->
  fst (lookup path) <> Some "" ->
  Mime.guess_type lookup path =
    match fst (lookup path) with
    | Some mimetype => mimetype
    | None => "application/octet-stream"
    end.
Proof.
  intros H N. rewrite guess_type_fallback by exact H.
  now apply py_or_nonempty.
Qed.

Lemma guess_type_general_lookup_witness :
  Mime.guess_type Mime.sample_lookup "/img/logo.png" = "image/png"
  /\ Mime.guess_type Mime.sample_lookup "/data.bin" = "application/octet-stream".
Proof.
  split.
  - apply (guess_type_general_lookup Mime.sample_lookup "/img/logo.png").
    + simpl. intros s H. decompose [or] H; subst; try reflexivity; contradiction.
    + vm_compute. discriminate.
  - apply (guess_type_general_lookup Mime.sample_lookup "/data.bin").
    + simpl. intros s H. decompose [or] H; subst; try reflexivity; contradiction.
    + vm_compute. discriminate.
Defined.

(** C10. The special suffixes are matched with regard to letter case:
    for a path whose suffix differs from '.js', '.css', '.html' or
    '.json' only in the case of its letters, [guess_type] applies no
    special rule and returns the general lookup's result, or
    'application/octet-stream' when the lookup yields none. *)
Theorem guess_type_case_sensitive
    (lookup : string -> option string * option string)
    (path suffix variant : string) :
  In suffix Mime.special_suffixes ->
  variant <> suffix ->
  Str.lower variant = Str.lower suffix ->
  Str.endswith path variant = true ->
  fst (lookup path) <> Some "" ->
  (forall s, In s Mime.special_suffixes -> Str.endswith path s = false)
  /\ Mime.guess_type lookup path =
       match fst (lookup path) with
       | Some mimetype => mimetype
       | None => "application/octet-stream"
       end.
Proof.
  intros Hs Hne Hlow Hend N.
  pose proof (case_variant_not_special path suffix variant Hs Hne Hlow Hend) as H.
  split; [exact H|].
  rewrite guess_type_fallback by exact H.
  now apply py_or_nonempty.
Qed.

Lemma guess_type_case_sensitive_witness :
  Mime.guess_type Mime.sample_lookup "/APP.JS" = "application/javascript"
  /\ Mime.guess_type Mime.sample_lookup "/Page.Html" = "text/html"
  /\ Mime.guess_type Mime.sample_lookup "/data.JSON" = "application/octet-stream".
Proof.
  split; [|split].
  - refine (proj2 (guess_type_case_sensitive Mime.sample_lookup
                     "/APP.JS" ".js" ".JS" _ _ _ _ _));
      [simpl; auto | discriminate | reflexivity | reflexivity | vm_compute; discriminate].
  - refine (proj2 (guess_type_case_sensitive Mime.sample_lookup
                     "/Page.Html" ".html" ".Html" _ _ _ _ _));
      [simpl; auto | discriminate | reflexivity | reflexivity | vm_compute; discriminate].
  - refine (proj2 (guess_type_case_sensitive Mime.sample_lookup
                     "/data.JSON" ".json" ".JSON" _ _ _ _ _));
      [simpl; auto 6 | discriminate | reflexivity | reflexivity | vm_compute; discriminate].
Defined.



(** C2 as stated fails for the error responses sent before the version
    of the request is known: the 400 that [parse_request] sends for a
    malformed request line is the page alone, with no header at all. *)
Lemma cors_missing_on_bad_request_counterexample :
  let h := Handler.send_error 400 "Bad request syntax ('GARBAGE')"
             "<html>Bad request</html>" Handler.sample_bad_request in
  Handler.request_version Handler.sample_bad_request = "HTTP/0.9"
  /\ Handler.wfile h = "<html>Bad request</html>"
  /\ Str.contains (Handler.wfile h) "Access-Control-Allow-Origin" = false
  /\ Str.contains (Handler.wfile h) "Access-Control-Allow-Methods" = false
  /\ Str.contains (Handler.wfile h) "Access-Control-Allow-Headers" = false.
Proof. vm_compute. repeat split; reflexivity. Qed.

(** C5. For every command-line port argument that [int] rejects (such
    as 'abc'), the process prints the numeric-port-required message and
    exits with status 1; that line is all it does, so no socket is bound
    and no other server action is taken. *)
Theorem non_numeric_port_exits
    (sys : Proc.os) (int : string -> option Z) (d : string) (argv : list string) :
  (1 < List.length argv)%nat ->
  int (nth 1 argv "") = None ->
  Proc.run sys int d argv =
    (Proc.Exit 1, {| Proc.cwd := d; Proc.trace := [Proc.Printed "错误: 端口号必须是数字"] |})
  /\ Proc.exit_status (fst (Proc.run sys int d argv)) = Some 1.
Proof.
  intros L N.
  assert (R : Proc.requested_port int argv = None).
  { destruct argv as [|a0 [|a1 rest]]; simpl in L; try lia. exact N. }
  rewrite main_run, R. split; reflexivity.
Qed.

Lemma non_numeric_port_exits_witness :
  Proc.int_decimal "abc" = None
  /\ Proc.run Proc.os_ok Proc.int_decimal "/srv/www" ["server.py"; "abc"] =
       (Proc.Exit 1,
        {| Proc.cwd := "/srv/www"; Proc.trace := [Proc.Printed "错误: 端口号必须是数字"] |}).
Proof.
  split; [reflexivity|].
  refine (proj1 (non_numeric_port_exits Proc.os_ok Proc.int_decimal "/srv/www"
                   ["server.py"; "abc"] _ _)).
  - simpl. lia.
  - reflexivity.
Defined.

(** C3, as the code has it.  When binding fails with an OSError whose
    errno is 10048, the Windows code for an address in use, the server
    prints the line naming the occupied port and the line suggesting
    port + 1; for an OSError with any other errno it prints the start-up
    error line with the error's text.  In both cases [start_server]
    returns and the accept loop is never entered. *)
Theorem bind_failure_report
    (sys : Proc.os) (d : string) (port : Z) (errno : option Z) (text : string) :
  Proc.socket_bind sys port = Some (Proc.OSError errno text) ->
  let r := Proc.start_server sys port (Proc.startup d) in
  fst r = Proc.Return tt
  /\ Proc.trace (snd r) =
       (Proc.diagnostics sys d ++ Proc.Bind port :: Proc.Close ::
        (if Proc.errno_is 10048 errno then
           [ Proc.Printed ("错误: 端口 " ++ Str.str port ++ " 已被占用");
             Proc.Printed ("请尝试使用其他端口，例如: python server.py " ++ Str.str (port + 1)) ]
         else [Proc.Printed ("启动服务器时出错: " ++ text)]))%list
  /\ ~ In Proc.ServeForever (Proc.trace (snd r)).
Proof.
  intros B r. subst r. rewrite start_server_run.
  unfold Proc.start_result, Proc.after_bind. rewrite B. simpl fst; simpl snd.
  unfold Proc.trace, Proc.report.
  split; [reflexivity|]. split; [reflexivity|].
  intro H. apply in_app_or in H as [H|H].
  - apply diagnostics_prints in H. discriminate H.
  - destruct H as [H|[H|H]]; try discriminate H.
    destruct (Proc.errno_is 10048 errno); simpl in H;
      decompose [or] H; try discriminate; contradiction.
Qed.

Lemma bind_failure_report_witness :
  Proc.trace (snd (Proc.start_server Proc.os_busy_windows 9000 (Proc.startup "C:/www"))) =
    [ Proc.Bind 9000; Proc.Close;
      Proc.Printed "错误: 端口 9000 已被占用";
      Proc.Printed "请尝试使用其他端口，例如: python server.py 9001" ].
Proof.
  refine (proj1 (proj2 (bind_failure_report Proc.os_busy_windows "C:/www" 9000
                          (Some 10048) "[WinError 10048] address in use" _))).
  reflexivity.
Defined.

(** C3 as stated fails where the address-in-use error carries another
    errno: with errno 98 no printed line names the port 9000 or
    suggests 9001. *)
Lemma bind_in_use_posix_counterexample :
  let r := Proc.start_server Proc.os_busy_posix 9000 (Proc.startup "/srv/www") in
  Proc.socket_bind Proc.os_busy_posix 9000 =
    Some (Proc.OSError (Some 98) "[Errno 98] Address already in use")
  /\ Proc.trace (snd r) =
       [ Proc.Printed Proc.warning; Proc.Printed "当前目录: /srv/www";
         Proc.Printed "目录内容:"; Proc.Printed "  app.js"; Proc.Printed "  css";
         Proc.Bind 9000; Proc.Close;
         Proc.Printed "启动服务器时出错: [Errno 98] Address already in use" ]
  /\ existsb (Proc.mentions "9000") (Proc.trace (snd r)) = false
  /\ existsb (Proc.mentions "9001") (Proc.trace (snd r)) = false.
Proof. vm_compute. repeat split; reflexivity. Qed.

(** The outcome of a run, case by case. *)
Lemma run_outcome
    (sys : Proc.os) (int : string -> option Z) (d : string) (argv : list string) :
  let r := Proc.run sys int d argv in
  match Proc.requested_port int argv with
  | None =>
      fst r = Proc.Exit 1 /\ Proc.trace (snd r) = [Proc.Printed "错误: 端口号必须是数字"]
  | Some port =>
      match Proc.socket_bind sys port, Proc.serve_end sys with
      | None, None => fst r = Proc.Forever
      | _, _ =>
          fst r = Proc.Return tt
          /\ exists text, forall dflt, last (Proc.trace (snd r)) dflt = Proc.Printed text
      end
  end.
Proof.
  intro r. subst r. rewrite main_run.
  destruct (Proc.requested_port int argv) as [port|]; [|split; reflexivity].
  rewrite start_server_run. unfold Proc.start_result, Proc.after_bind.
  simpl fst; simpl snd. unfold Proc.trace.
  destruct (Proc.socket_bind sys port) as [e|].
  - split; [reflexivity|].
    destruct (report_last port e (Proc.diagnostics sys d ++ [Proc.Bind port])) as [text L].
    exists text. intro dflt. rewrite <- (L dflt), <- app_assoc. reflexivity.
  - destruct (Proc.serve_end sys) as [e|]; [|reflexivity].
    split; [reflexivity|].
    destruct (report_last port e
                (Proc.diagnostics sys d ++ Proc.Bind port :: Proc.banner d port
                 ++ Proc.ServeForever :: map (Proc.Serve d) (Proc.connections sys)))
      as [text L].
    exists text. intro dflt. rewrite <- (L dflt). f_equal.
    repeat (rewrite <- app_assoc; cbn [app]). reflexivity.
Qed.

(** C4, as the code has it.  The exit status is 1 exactly when [int]
    rejects the port argument, and 0 in every other case in which the
    process ends: on a shutdown by interrupt and, as well, on every
    start-up error that [start_server] catches, a failed bind among
    them.  Whenever the process exits, the last thing it did was to
    print a message. *)
Theorem exit_status_cases
    (sys : Proc.os) (int : string -> option Z) (d : string) (argv : list string) :
  let r := Proc.run sys int d argv in
  (Proc.exit_status (fst r) = Some 1 <-> Proc.requested_port int argv = None)
  /\ (Proc.exit_status (fst r) = Some 0 <->
      exists port, Proc.requested_port int argv = Some port
                   /\ (Proc.socket_bind sys port <> None \/ Proc.serve_end sys <> None))
  /\ (forall status, Proc.exit_status (fst r) = Some status ->
      (status = 0 \/ status = 1)
      /\ exists text, forall dflt, last (Proc.trace (snd r)) dflt = Proc.Printed text).
Proof.
  intro r. pose proof (run_outcome sys int d argv) as O. fold r in O.
  destruct (Proc.requested_port int argv) as [port|].
  - assert (G : fst r = Proc.Return tt ->
                (exists text, forall dflt, last (Proc.trace (snd r)) dflt = Proc.Printed text) ->
                Proc.socket_bind sys port <> None \/ Proc.serve_end sys <> None ->
                (Proc.exit_status (fst r) = Some 1 <-> Some port = None)
                /\ (Proc.exit_status (fst r) = Some 0 <->
                    exists p, Some port = Some p
                              /\ (Proc.socket_bind sys p <> None \/ Proc.serve_end sys <> None))
                /\ (forall status, Proc.exit_status (fst r) = Some status ->
                    (status = 0 \/ status = 1)
                    /\ exists text, forall dflt,
                         last (Proc.trace (snd r)) dflt = Proc.Printed text)).
    { intros E L N. rewrite E. simpl. split; [|split].
      - split; discriminate.
      - split; [intros _; now exists port | reflexivity].
      - intros status S. injection S as <-. split; [now left | exact L]. }
    destruct (Proc.socket_bind sys port) as [e|] eqn:B.
    + destruct O as [O L]. apply G; [exact O | exact L | left; discriminate].
    + destruct (Proc.serve_end sys) as [e|] eqn:S.
      * destruct O as [O L]. apply G; [exact O | exact L | right; discriminate].
      * rewrite O. simpl. split; [|split].
        -- split; discriminate.
        -- split; [discriminate|].
           intros (p & E & [N|N]); injection E as <-; now elim N.
        -- discriminate.
  - destruct O as [O T]. rewrite O, T. simpl. split; [|split].
    + split; reflexivity.
    + split; [discriminate|]. intros (p & E & _). discriminate E.
    + intros status S. injection S as <-. split; [now right|].
      now exists "错误: 端口号必须是数字".
Qed.

(** C4 as stated fails on a failed bind: the process reports the error
    and ends with status 0, without having served. *)
Lemma exit_status_bind_failure_counterexample :
  let r := Proc.run Proc.os_busy_posix Proc.int_decimal "/srv/www" ["server.py"; "9000"] in
  Proc.socket_bind Proc.os_busy_posix 9000 =
    Some (Proc.OSError (Some 98) "[Errno 98] Address already in use")
  /\ Proc.exit_status (fst r) = Some 0
  /\ ~ In Proc.ServeForever (Proc.trace (snd r)).
Proof.
  vm_compute. repeat split.
  intro H. decompose [or] H; try discriminate; contradiction.
Qed.






(** Connections are served from the start-up directory only. *)
Lemma after_bind_root (sys : Proc.os) (d : string) (port : Z)
    (root : string) (r : Proc.request) :
  In (Proc.Serve root r) (Proc.after_bind sys d port) -> root = d.
Proof.
  assert (R : forall e, ~ In (Proc.Serve root r) (Proc.report port e)).
  { intros e H. apply report_prints in H. discriminate H. }
  unfold Proc.after_bind.
  destruct (Proc.socket_bind sys port) as [e|].
  - intros [H|H]; [discriminate H | now apply R in H].
  - intro H. apply in_app_or in H as [H|[H|H]].
    + simpl in H. decompose [or] H; try discriminate; contradiction.
    + discriminate H.
    + apply in_app_or in H as [H|H].
      * apply in_map_iff in H as (r' & E & _). now injection E.
      * destruct (Proc.serve_end sys) as [e|]; [|contradiction].
        destruct H as [H|H]; [discriminate H | now apply R in H].
Qed.

(** Once the accept loop runs, each accepted connection is served. *)
Lemma connections_served (sys : Proc.os) (int : string -> option Z)
    (d : string) (argv : list string) (port : Z) (r : Proc.request) :
  Proc.requested_port int argv = Some port ->
  Proc.socket_bind sys port = None ->
  In r (Proc.connections sys) ->
  In (Proc.Serve d r) (Proc.trace (snd (Proc.run sys int d argv))).
Proof.
  intros R B I. rewrite main_run, R, start_server_run.
  unfold Proc.after_bind. rewrite B. unfold snd, Proc.trace.
  apply in_or_app. right. right.
  apply in_or_app. right. right.
  apply in_or_app. left. now apply in_map.
Qed.

(** C9. The root directory every request is served from is the working
    directory the process had at start-up: the handler of each
    connection is built with that directory, and the working directory
    of the process is the same when the run ends. *)
Theorem root_directory_is_startup_cwd
    (sys : Proc.os) (int : string -> option Z) (d : string) (argv : list string)
    (root : string) (r : Proc.request) :
  In (Proc.Serve root r) (Proc.trace (snd (Proc.run sys int d argv))) ->
  root = d /\ Proc.cwd (snd (Proc.run sys int d argv)) = d.
Proof.
  rewrite main_run.
  destruct (Proc.requested_port int argv) as [port|].
  - rewrite start_server_run. simpl. intro H. split; [|reflexivity].
    apply in_app_or in H as [H|[H|H]].
    + apply diagnostics_prints in H. discriminate H.
    + discriminate H.
    + exact (after_bind_root sys d port root r H).
  - simpl. intros [H|[]]. discriminate H.
Qed.

Lemma root_directory_is_startup_cwd_witness :
  In (Proc.Serve "/srv/www" Proc.get_app_js)
     (Proc.trace (snd (Proc.run Proc.os_ok Proc.int_decimal "/srv/www" ["server.py"])))
  /\ "/srv/www" = "/srv/www"
  /\ Proc.cwd (snd (Proc.run Proc.os_ok Proc.int_decimal "/srv/www" ["server.py"]))
     = "/srv/www".
Proof.
  assert (I : In (Proc.Serve "/srv/www" Proc.get_app_js)
                (Proc.trace (snd (Proc.run Proc.os_ok Proc.int_decimal
                                    "/srv/www" ["server.py"]))))
    by (vm_compute; auto 10).
  exact (conj I (root_directory_is_startup_cwd Proc.os_ok Proc.int_decimal
                   "/srv/www" ["server.py"] "/srv/www" Proc.get_app_js I)).
Defined.

(** ** Further properties of [guess_type] *)

(** X1. A path ends in at most one of the four special suffixes, so the
    order in which [guess_type] tests them never decides the result. *)
Theorem special_suffixes_exclusive (path a b : string) :
  In a Mime.special_suffixes -> In b Mime.special_suffixes ->
  Str.endswith path a = true -> Str.endswith path b = true -> a = b.
Proof. apply special_suffix_unique. Qed.

Lemma special_suffixes_exclusive_witness :
  Str.endswith "/static/site.css" ".css" = true /\ ".css" = ".css".
Proof.
  split; [reflexivity|].
  apply (special_suffixes_exclusive "/static/site.css" ".css" ".css");
    [simpl; auto | simpl; auto | reflexivity | reflexivity].
Defined.

(** X2. [guess_type] never returns the empty string: whatever the
    general lookup answers, an empty answer included, the content type
    is one of the four fixed types, a non-empty lookup result, or
    'application/octet-stream'. *)
Theorem guess_type_never_empty
    (lookup : string -> option string * option string) (path : string) :
  Mime.guess_type lookup path <> ""
  /\ (In (Mime.guess_type lookup path) (map snd Mime.policy)
      \/ fst (lookup path) = Some (Mime.guess_type lookup path)
      \/ Mime.guess_type lookup path = "application/octet-stream").
Proof.
  unfold Mime.guess_type. destruct (lookup path) as [mimetype encoding]; simpl fst.
  destruct (Str.endswith path ".js");
    [split; [discriminate | left; simpl; auto] |].
  destruct (Str.endswith path ".css");
    [split; [discriminate | left; simpl; auto] |].
  destruct (Str.endswith path ".html");
    [split; [discriminate | left; simpl; auto] |].
  destruct (Str.endswith path ".json");
    [split; [discriminate | left; simpl; auto 6] |].
  destruct mimetype as [m|]; simpl.
  - destruct (String.eqb_spec m "") as [->|N].
    + split; [discriminate | right; right; reflexivity].
    + split; [exact N | right; left; reflexivity].
  - split; [discriminate | right; right; reflexivity].
Qed.

(** X3. [guess_type] ignores the encoding the general lookup reports:
    two lookups that agree on the type of a path give the same content
    type, so a compressed file is served under the type of what it
    contains, with nothing said about the compression. *)
Theorem guess_type_ignores_encoding
    (lookup1 lookup2 : string -> option string * option string) (path : string) :
  fst (lookup1 path) = fst (lookup2 path) ->
  Mime.guess_type lookup1 path = Mime.guess_type lookup2 path.
Proof.
  unfold Mime.guess_type.
  destruct (lookup1 path) as [m1 e1], (lookup2 path) as [m2 e2]; simpl.
  now intros ->.
Qed.

Lemma guess_type_ignores_encoding_witness :
  Mime.sample_lookup "/backup.tar.gz" = (Some "application/x-tar", Some "gzip")
  /\ Mime.guess_type Mime.sample_lookup "/backup.tar.gz" =
     Mime.guess_type (fun p => (fst (Mime.sample_lookup p), None)) "/backup.tar.gz".
Proof.
  split; [reflexivity|].
  apply (guess_type_ignores_encoding Mime.sample_lookup
           (fun p => (fst (Mime.sample_lookup p), None)) "/backup.tar.gz").
  reflexivity.
Defined.

(** ** Further properties of [end_headers] *)

(** X4. For a request of version HTTP/0.9 [end_headers] adds nothing:
    after any series of header calls the connection has received no
    byte and the header buffer is as it was, so such a response carries
    no CORS header. *)
Theorem end_headers_http09_silent
    (h : Handler.handler) (calls : list Handler.header_call) :
  Handler.request_version h = "HTTP/0.9" ->
  Handler.wfile (Handler.respond calls h) = Handler.wfile h
  /\ Handler.headers_buffer (Handler.respond calls h) = Handler.headers_buffer h.
Proof. apply respond_http09. Qed.

Lemma end_headers_http09_silent_witness :
  let h := Handler.sample_http09 in
  Handler.wfile (Handler.respond [Handler.SendResponse 200 "OK"] h) = "".
Proof.
  refine (proj1 (end_headers_http09_silent Handler.sample_http09
                   [Handler.SendResponse 200 "OK"] _)).
  reflexivity.
Defined.

(** X5. Adding the CORS headers leaves the connection as it finds it:
    [end_headers] never changes whether the connection is to be closed,
    nor the request, and for HTTP/1.x it leaves the header buffer
    empty, so that no header line is sent twice. *)
Theorem end_headers_keeps_connection (h : Handler.handler) :
  Handler.close_connection (Handler.end_headers h) = Handler.close_connection h
  /\ Handler.command (Handler.end_headers h) = Handler.command h
  /\ Handler.request_version (Handler.end_headers h) = Handler.request_version h
  /\ Handler.directory (Handler.end_headers h) = Handler.directory h
  /\ (Handler.request_version h <> "HTTP/0.9" ->
      Handler.headers_buffer (Handler.end_headers h) = []).
Proof.
  unfold Handler.end_headers, Handler.super_end_headers, Handler.send_header,
    Handler.flush_headers.
  simpl.
  destruct (String.eqb (Handler.request_version h) "HTTP/0.9") eqn:V; simpl;
    rewrite ?V; simpl; rewrite ?V; simpl; rewrite ?V; simpl.
  - repeat split. intro N. apply String.eqb_eq in V. now elim N.
  - repeat split.
Qed.

(** X6. How [guess_type] and [end_headers] meet in a successful
    response: for a file whose name ends in a special suffix, the header
    section written is the status line, Server and Date, the
    Content-type of the policy, Content-Length and Last-Modified, then
    the three CORS headers and the blank line, in this order. *)
Theorem send_head_ok_headers
    (lookup : string -> option string * option string)
    (path size mtime suffix ctype : string) (h : Handler.handler) :
  Handler.request_version h <> "HTTP/0.9" ->
  In (suffix, ctype) Mime.policy ->
  Str.endswith path suffix = true ->
  Handler.wfile (Handler.send_head_ok lookup path size mtime h) =
    (Handler.wfile h ++
     String.concat ""
       (Handler.headers_buffer h
        ++ [ Handler.status_line 200 "OK";
             Handler.header_line "Server" (Handler.version_string h);
             Handler.header_line "Date" (Handler.date_time_string h);
             Handler.header_line "Content-type" ctype;
             Handler.header_line "Content-Length" size;
             Handler.header_line "Last-Modified" mtime ]
        ++ Handler.cors_lines ++ [Handler.crlf]))%string.
Proof.
  intros V I E.
  change (Handler.send_head_ok lookup path size mtime h)
    with (Handler.respond
            [ Handler.SendResponse 200 "OK";
              Handler.SendHeader "Content-type" (Mime.guess_type lookup path);
              Handler.SendHeader "Content-Length" size;
              Handler.SendHeader "Last-Modified" mtime ] h).
  rewrite respond_writes by exact V.
  rewrite (guess_type_policy lookup path suffix ctype I E).
  reflexivity.
Qed.

Lemma send_head_ok_headers_witness :
  Handler.wfile
    (Handler.send_head_ok Mime.sample_lookup "/srv/www/index.html" "1024"
       "Wed, 31 Dec 2025 12:00:00 GMT" Handler.sample) =
  String.concat ""
    [ Handler.status_line 200 "OK";
      Handler.header_line "Server" "SimpleHTTP/0.6 Python/3.12.0";
      Handler.header_line "Date" "Thu, 01 Jan 2026 00:00:00 GMT";
      Handler.header_line "Content-type" "text/html; charset=utf-8";
      Handler.header_line "Content-Length" "1024";
      Handler.header_line "Last-Modified" "Wed, 31 Dec 2025 12:00:00 GMT";
      Handler.header_line "Access-Control-Allow-Origin" "*";
      Handler.header_line "Access-Control-Allow-Methods" "GET, POST, OPTIONS";
      Handler.header_line "Access-Control-Allow-Headers" "Content-Type";
      Handler.crlf ].
Proof.
  apply (send_head_ok_headers Mime.sample_lookup "/srv/www/index.html" "1024"
           "Wed, 31 Dec 2025 12:00:00 GMT" ".html" "text/html; charset=utf-8"
           Handler.sample).
  - simpl. discriminate.
  - simpl. auto.
  - reflexivity.
Defined.

(** ** Further properties of [start_server] and of the script *)

Lemma filter_prints (f : Proc.event -> bool) (l : list Proc.event) :
  (forall text, f (Proc.Printed text) = false) ->
  (forall e, In e l -> Proc.is_print e = true) ->
  filter f l = [].
Proof.
  intros F. induction l as [|e l IH]; intro P; simpl; [reflexivity|].
  assert (Pe : Proc.is_print e = true) by (apply P; now left).
  destruct e; try discriminate Pe. rewrite F.
  apply IH. intros e' I. apply P. now right.
Qed.

Lemma banner_prints (d : string) (port : Z) (e : Proc.event) :
  In e (Proc.banner d port) -> Proc.is_print e = true.
Proof.
  simpl. intro H. decompose [or] H; subst; try reflexivity; contradiction.
Qed.


(** What remains of the trace of [start_server] when only events of one
    kind are kept; [f] tells the kind, and keeps no printed line. *)
Lemma filter_start_server (f : Proc.event -> bool)
    (sys : Proc.os) (port : Z) (d : string) :
  (forall text, f (Proc.Printed text) = false) ->
  filter f (Proc.trace (snd (Proc.start_server sys port (Proc.startup d)))) =
    (filter f [Proc.Bind port]
     ++ match Proc.socket_bind sys port with
        | Some _ => filter f [Proc.Close]
        | None =>
            filter f [Proc.ServeForever]
            ++ filter f (map (Proc.Serve d) (Proc.connections sys))
            ++ match Proc.serve_end sys with
               | Some _ => filter f [Proc.Close]
               | None => []
               end
        end)%list.
Proof.
  intro F. rewrite start_server_run. unfold snd, Proc.trace.
  rewrite filter_app, (filter_prints f _ F (diagnostics_prints sys d)).
  change (Proc.Bind port :: Proc.after_bind sys d port)
    with ([Proc.Bind port] ++ Proc.after_bind sys d port)%list.
  rewrite filter_app. cbn [app]. f_equal.
  unfold Proc.after_bind.
  destruct (Proc.socket_bind sys port) as [e|].
  - change (Proc.Close :: Proc.report port e)
      with ([Proc.Close] ++ Proc.report port e)%list.
    rewrite filter_app, (filter_prints f _ F (report_prints port e)).
    now rewrite app_nil_r.
  - rewrite filter_app, (filter_prints f _ F (banner_prints d port)). cbn [app].
    change (Proc.ServeForever :: map (Proc.Serve d) (Proc.connections sys) ++ ?x)%list
      with ([Proc.ServeForever] ++ map (Proc.Serve d) (Proc.connections sys) ++ x)%list.
    rewrite !filter_app. do 2 f_equal.
    destruct (Proc.serve_end sys) as [e|]; [|reflexivity].
    change (Proc.Close :: Proc.report port e)
      with ([Proc.Close] ++ Proc.report port e)%list.
    rewrite filter_app, (filter_prints f _ F (report_prints port e)).
    now rewrite app_nil_r.
Qed.

(** X7. No exception leaves [start_server] and it never ends the
    process itself: it returns normally, whatever the bind or the accept
    loop raise, unless it serves for ever, which it does exactly when
    the bind succeeds and nothing ends the accept loop. *)
Theorem start_server_never_raises (sys : Proc.os) (port : Z) (d : string) :
  let r := fst (Proc.start_server sys port (Proc.startup d)) in
  (r = Proc.Return tt \/ r = Proc.Forever)
  /\ (r = Proc.Forever <->
      Proc.socket_bind sys port = None /\ Proc.serve_end sys = None).
Proof.
  intro r. subst r. rewrite start_server_run. unfold fst, Proc.start_result.
  destruct (Proc.socket_bind sys port) as [e|]; [|destruct (Proc.serve_end sys) as [e|]].
  - split; [now left|]. split; [discriminate | intros [B _]; discriminate B].
  - split; [now left|]. split; [discriminate | intros [_ S]; discriminate S].
  - split; [now right|]. split; auto.
Qed.




(** X10. The connections served are exactly the accepted ones, in
    their order, each from the start-up directory; none is served when
    the bind fails. *)
Theorem served_connections (sys : Proc.os) (port : Z) (d : string) :
  filter Proc.is_serve
    (Proc.trace (snd (Proc.start_server sys port (Proc.startup d)))) =
    match Proc.socket_bind sys port with
    | Some _ => []
    | None => map (Proc.Serve d) (Proc.connections sys)
    end.
Proof.
  rewrite filter_start_server by reflexivity.
  destruct (Proc.socket_bind sys port); [reflexivity|].
  cbn [filter Proc.is_serve app].
  assert (E : filter Proc.is_serve (map (Proc.Serve d) (Proc.connections sys))
              = map (Proc.Serve d) (Proc.connections sys)).
  { induction (Proc.connections sys) as [|r rs IH]; simpl; [reflexivity|].
    now rewrite IH. }
  rewrite E. destruct (Proc.serve_end sys); simpl; now rewrite app_nil_r.
Qed.

(** X11. The success banner is tied to the bind: after a successful
    bind the four banner lines, with the URL of the port and the working
    directory, come right after the bind and right before the accept
    loop; after a failed bind the success line is never printed and the
    accept loop never entered. *)
Theorem banner_iff_bound (sys : Proc.os) (port : Z) (d : string) :
  let t := Proc.trace (snd (Proc.start_server sys port (Proc.startup d))) in
  (Proc.socket_bind sys port = None ->
     exists rest,
       t = (Proc.diagnostics sys d
            ++ [ Proc.Bind port;
                 Proc.Printed (Str.nl ++ "=== HTTP服务器启动成功 ===");
                 Proc.Printed ("服务器地址: http://localhost:" ++ Str.str port);
                 Proc.Printed ("服务目录: " ++ d);
                 Proc.Printed ("按 Ctrl+C 停止服务器" ++ Str.nl);
                 Proc.ServeForever ]
            ++ rest)%list)
  /\ (Proc.socket_bind sys port <> None ->
     ~ In (Proc.Printed (Str.nl ++ "=== HTTP服务器启动成功 ===")) t
     /\ ~ In Proc.ServeForever t).
Proof.
  intro t. subst t. rewrite start_server_run. unfold snd, Proc.trace, Proc.after_bind.
  split; intro B.
  - rewrite B. eexists. reflexivity.
  - destruct (Proc.socket_bind sys port) as [e|]; [clear B | now elim B].
    assert (G : forall x,
              (forall text, x <> Proc.Printed ("  " ++ text)) ->
              x <> Proc.Printed Proc.warning ->
              x <> Proc.Printed ("当前目录: " ++ d) ->
              x <> Proc.Printed "目录内容:" ->
              x <> Proc.Bind port -> x <> Proc.Close ->
              ~ In x (Proc.report port e) ->
              ~ In x (Proc.diagnostics sys d ++ Proc.Bind port
                      :: Proc.Close :: Proc.report port e)).
    { intros x N1 N2 N3 N4 N5 N6 N7 H. apply in_app_or in H as [H|[H|[H|H]]].
      - unfold Proc.diagnostics in H.
        destruct (Proc.path_exists sys "index.html"); [contradiction|].
        apply in_app_or in H as [H|H].
        + simpl in H. decompose [or] H; try contradiction; subst x;
            first [now elim N2 | now elim N3 | now elim N4].
        + apply in_map_iff in H as (item & E & _). symmetry in E.
          exact (N1 item E).
      - now elim N5.
      - now elim N6.
      - exact (N7 H). }
    split; apply G; try discriminate;
      try (intros; intro E; vm_compute in E; discriminate E);
      try (intro H; apply report_prints in H; discriminate H).
    destruct e as [|errno text|text]; simpl;
      [| destruct (Proc.errno_is 10048 errno); simpl |];
      intro H; decompose [or] H; try contradiction;
      match goal with E : _ = _ |- False => vm_compute in E; discriminate E end.
Qed.

Lemma banner_iff_bound_witness :
  ~ In (Proc.Printed (Str.nl ++ "=== HTTP服务器启动成功 ==="))
       (Proc.trace (snd (Proc.start_server Proc.os_busy_windows 9000
                           (Proc.startup "C:/www"))))
  /\ exists rest,
       Proc.trace (snd (Proc.start_server Proc.os_ok 8000 (Proc.startup "/srv/www"))) =
         ([ Proc.Bind 8000;
            Proc.Printed (Str.nl ++ "=== HTTP服务器启动成功 ===");
            Proc.Printed "服务器地址: http://localhost:8000";
            Proc.Printed "服务目录: /srv/www";
            Proc.Printed ("按 Ctrl+C 停止服务器" ++ Str.nl);
            Proc.ServeForever ] ++ rest)%list.
Proof.
  split.
  - refine (proj1 (proj2 (banner_iff_bound Proc.os_busy_windows 9000 "C:/www") _)).
    simpl. discriminate.
  - refine (proj1 (banner_iff_bound Proc.os_ok 8000 "/srv/www") _).
    reflexivity.
Defined.

(** X12. Shutdown by interrupt: when the accept loop is ended by
    KeyboardInterrupt, the server is closed, the stopped message is the
    last line printed, and the process exits with status 0. *)
Theorem interrupt_shutdown
    (sys : Proc.os) (int : string -> option Z) (d : string) (argv : list string)
    (port : Z) :
  Proc.requested_port int argv = Some port ->
  Proc.socket_bind sys port = None ->
  Proc.serve_end sys = Some Proc.KeyboardInterrupt ->
  Proc.run sys int d argv =
    (Proc.Return tt,
     {| Proc.cwd := d;
        Proc.trace :=
          Proc.diagnostics sys d
          ++ Proc.Bind port :: Proc.banner d port
          ++ Proc.ServeForever :: map (Proc.Serve d) (Proc.connections sys)
          ++ [Proc.Close; Proc.Printed (Str.nl ++ "服务器已停止")] |})
  /\ Proc.exit_status (fst (Proc.run sys int d argv)) = Some 0.
Proof.
  intros R B S. rewrite main_run, R, start_server_run.
  unfold Proc.start_result, Proc.after_bind. rewrite B, S.
  split; reflexivity.
Qed.

Lemma interrupt_shutdown_witness :
  Proc.exit_status
    (fst (Proc.run Proc.os_ok Proc.int_decimal "/srv/www" ["server.py"; "8080"]))
  = Some 0.
Proof.
  refine (proj2 (interrupt_shutdown Proc.os_ok Proc.int_decimal "/srv/www"
                   ["server.py"; "8080"] 8080 _ _ _)); reflexivity.
Defined.

(** X13. The except clauses guard the accept loop as well as the bind:
    an OSError that ends the accept loop, long after a successful
    start, is reported by the same lines as a failed bind, the
    port-in-use lines for errno 10048 and the start-up error line
    otherwise, after which [start_server] returns. *)
Theorem serving_error_report
    (sys : Proc.os) (port : Z) (d : string) (errno : option Z) (text : string) :
  Proc.socket_bind sys port = None ->
  Proc.serve_end sys = Some (Proc.OSError errno text) ->
  Proc.start_server sys port (Proc.startup d) =
    (Proc.Return tt,
     {| Proc.cwd := d;
        Proc.trace :=
          Proc.diagnostics sys d
          ++ Proc.Bind port :: Proc.banner d port
          ++ Proc.ServeForever :: map (Proc.Serve d) (Proc.connections sys)
          ++ Proc.Close ::
             (if Proc.errno_is 10048 errno then
                [ Proc.Printed ("错误: 端口 " ++ Str.str port ++ " 已被占用");
                  Proc.Printed ("请尝试使用其他端口，例如: python server.py "
                                ++ Str.str (port + 1)) ]
              else [Proc.Printed ("启动服务器时出错: " ++ text)]) |}).
Proof.
  intros B S. rewrite start_server_run.
  unfold Proc.start_result, Proc.after_bind. rewrite B, S. reflexivity.
Qed.

Lemma serving_error_report_witness :
  Proc.trace (snd (Proc.start_server Proc.os_loop_error 8000 (Proc.startup "/srv/www"))) =
    [ Proc.Bind 8000;
      Proc.Printed (Str.nl ++ "=== HTTP服务器启动成功 ===");
      Proc.Printed "服务器地址: http://localhost:8000";
      Proc.Printed "服务目录: /srv/www";
      Proc.Printed ("按 Ctrl+C 停止服务器" ++ Str.nl);
      Proc.ServeForever;
      Proc.Serve "/srv/www" Proc.get_index;
      Proc.Close;
      Proc.Printed "启动服务器时出错: [Errno 24] Too many open files" ].
Proof.
  refine (f_equal (fun r => Proc.trace (snd r))
            (serving_error_report Proc.os_loop_error 8000 "/srv/www" (Some 24)
               "[Errno 24] Too many open files" _ _)); reflexivity.
Defined.



(** X15. Only the first argument counts: the program name and any
    argument after the port have no influence on the run. *)
Theorem surplus_arguments_ignored
    (sys : Proc.os) (int : string -> option Z) (d : string)
    (name name' arg : string) (rest rest' : list string) :
  Proc.run sys int d (name :: arg :: rest) = Proc.run sys int d (name' :: arg :: rest').
Proof. now rewrite !main_run. Qed.

(** X16. An exception of the bind that is neither an interrupt nor an
    OSError is caught by the last clause: the line printed is the
    unknown-error line with the text of the exception, the server is
    closed, the accept loop is not entered and [start_server] returns. *)
Theorem unknown_error_report
    (sys : Proc.os) (port : Z) (d text : string) :
  Proc.socket_bind sys port = Some (Proc.OtherException text) ->
  Proc.start_server sys port (Proc.startup d) =
    (Proc.Return tt,
     {| Proc.cwd := d;
        Proc.trace :=
          Proc.diagnostics sys d
          ++ [Proc.Bind port; Proc.Close; Proc.Printed ("未知错误: " ++ text)] |}).
Proof.
  intro B. rewrite start_server_run.
  unfold Proc.start_result, Proc.after_bind. rewrite B. reflexivity.
Qed.

Lemma unknown_error_report_witness :
  Proc.start_server Proc.os_bind_odd 8000 (Proc.startup "/srv/www") =
    (Proc.Return tt,
     {| Proc.cwd := "/srv/www";
        Proc.trace :=
          [Proc.Bind 8000; Proc.Close; Proc.Printed "未知错误: out of memory"] |}).
Proof.
  apply (unknown_error_report Proc.os_bind_odd 8000 "/srv/www" "out of memory").
  reflexivity.
Defined.

(** X17. The interrupt clause covers the start-up too: an interrupt
    that arrives while the socket is being bound is answered with the
    stopped message, although nothing was started; no banner is printed
    and the accept loop is not entered. *)
Theorem interrupt_during_bind (sys : Proc.os) (port : Z) (d : string) :
  Proc.socket_bind sys port = Some Proc.KeyboardInterrupt ->
  Proc.start_server sys port (Proc.startup d) =
    (Proc.Return tt,
     {| Proc.cwd := d;
        Proc.trace :=
          Proc.diagnostics sys d
          ++ [Proc.Bind port; Proc.Close; Proc.Printed (Str.nl ++ "服务器已停止")] |}).
Proof.
  intro B. rewrite start_server_run.
  unfold Proc.start_result, Proc.after_bind. rewrite B. reflexivity.
Qed.

Lemma interrupt_during_bind_witness :
  Proc.trace
    (snd (Proc.start_server
            {| Proc.path_exists := fun _ => true;
               Proc.listdir := fun _ => [];
               Proc.bind_error := fun _ => Some Proc.KeyboardInterrupt;
               Proc.connections := [];
               Proc.serve_end := None |}
            8000 (Proc.startup "/srv/www"))) =
    [Proc.Bind 8000; Proc.Close; Proc.Printed (Str.nl ++ "服务器已停止")].
Proof.
  refine (f_equal (fun r => Proc.trace (snd r))
            (interrupt_during_bind _ 8000 "/srv/www" _)).
  reflexivity.
Defined.
